(** * Trade simulator: execution engine and its three cost models

    A shallow embedding of

      - [src/execution_engine.py]  (class [ExecutionEngine])
      - [src/slippage_model.py]    (class [SlippageModel])
      - [src/impact_model.py]      (class [MarketImpactModel])
      - [src/fee_model.py]         (class [MakerTakerFeeModel.calculate_fee])

    Conventions of the embedding.

      - Python numbers ([int] and [float] alike) are exact rationals [Q]
        in the main model; numeric results are compared with [==].  The
        theorems over it state what rounding does not change: labels and
        branches as functions of the program's own values, signs, bounds
        that every correctly rounded operation keeps.  Where the rounding
        of binary64 decides the outcome, [Module Binary64] holds the same
        code on doubles, and the evaluations there are the program's.
      - Python strings are [string]; [str.lower] is the ASCII lower-casing.
      - A Python [dict] is a [gmap string _]; [None] is [option]'s [None].
      - A run of Python code either returns or raises: [Py A].  The
        exceptions the modelled code can raise are [ZeroDivisionError]
        (float division), [KeyError] (dict subscription), [TypeError]
        (ordering a number against [None] or against a complex) and
        [OverflowError] (a power out of the range of a double).
      - The float power operator [**] and [random.uniform] belong to the
        Python runtime; they are variables of the section that holds the
        models.  [logger] calls are not modelled. *)

From Stdlib Require Import QArith Qround Qminmax Lqa ZArith Lia String Ascii List.
From Stdlib Require Import DecimalString.
From Stdlib Require Import Floats.PrimFloat Floats.SpecFloat Floats.FloatOps.
From stdpp Require Import gmap strings.
Import ListNotations.

Set Warnings "-inexact-float".

Local Open Scope Q_scope.
Local Open Scope string_scope.

(** ** Python runtime: exceptions *)

Inductive PyExn : Type :=
| ZeroDivisionError
| KeyError (key : string)
| TypeError
| OverflowError.

Inductive Py (A : Type) : Type :=
| Ok (a : A)
| Raise (e : PyExn).

Arguments Ok {A} a.
Arguments Raise {A} e.

#[global] Instance Py_ret : MRet Py := fun _ a => Ok a.

#[global] Instance Py_bind : MBind Py := fun _ _ k m =>
  match m with
  | Ok a => k a
  | Raise e => Raise e
  end.

(** [a / b] on floats. *)
Definition pydiv (a b : Q) : Py Q :=
  if Qeq_bool b 0 then Raise ZeroDivisionError else Ok (a / b).

(** The largest double, [sys.float_info.max]. *)
Definition float_max : Q := inject_Z ((2 ^ 53 - 1) * 2 ^ 971).

(** [d[k]] on a dict. *)
Definition getitem {V : Type} (d : gmap string V) (k : string) : Py V :=
  match d !! k with
  | Some v => Ok v
  | None => Raise (KeyError k)
  end.

(** Comparisons as the booleans Python computes. *)
Definition Qlt_bool (a b : Q) : bool := negb (Qle_bool b a).

(** ** Python runtime: [str.lower] on ASCII text *)

Definition lower_ascii (c : ascii) : ascii :=
  let n := nat_of_ascii c in
  if (Nat.leb 65 n && Nat.leb n 90)%bool then ascii_of_nat (n + 32) else c.

Fixpoint lower (s : string) : string :=
  match s with
  | EmptyString => EmptyString
  | String c rest => String (lower_ascii c) (lower rest)
  end.

(** [x in [a, b]] for a two-element list literal of strings. *)
Definition in_pair (x a b : string) : bool := (String.eqb x a || String.eqb x b)%bool.

(** ** Python runtime: [round(x, ndigits)] and the [:.2f] format

    Both round half to even; over exact rationals the tie is exact. *)

Definition round_half_even (x : Q) : Z :=
  let f := Qfloor x in
  match Qcompare (x - inject_Z f) (1 # 2) with
  | Lt => f
  | Gt => (f + 1)%Z
  | Eq => if Z.even f then f else (f + 1)%Z
  end.

Definition pow10 (n : nat) : positive := Pos.pow 10 (Pos.of_nat n).

Definition scale10 (n : nat) : positive :=
  match n with
  | O => 1%positive
  | S _ => pow10 n
  end.

Definition pyround (x : Q) (ndigits : nat) : Q :=
  Qmake (round_half_even (x * inject_Z (Zpos (scale10 ndigits)))) (scale10 ndigits).

Definition two_digits (z : Z) : string :=
  let s := NilZero.string_of_int (Z.to_int z) in
  if (z <? 10)%Z then "0" ++ s else s.

(** [f"{x:.2f}"], for [x >= 0] (the engine formats positive amounts only). *)
Definition format_2f (x : Q) : string :=
  let n := round_half_even (x * 100) in
  NilZero.string_of_int (Z.to_int (n / 100)) ++ "." ++ two_digits (n mod 100).

(** ** Data model *)

(** One book level, the Python list [[price, quantity]]. *)
Definition Level : Type := (Q * Q)%type.

(** The book, a dict with the keys ["bids"] and ["asks"]. *)
Abbreviation OrderBook := (gmap string (list Level)).

(** [levels[0][0] if levels else 0] *)
Definition first_price (levels : list Level) : Q :=
  match levels with
  | [] => 0
  | (price, _) :: _ => price
  end.

(** [order_book[key][0][0] if order_book[key] else 0] *)
Definition best_price (order_book : OrderBook) (key : string) : Py Q :=
  levels ← getitem order_book key; Ok (first_price levels).

(** [sum(qty for _, qty in levels)] *)
Definition sum_qty (levels : list Level) : Q :=
  fold_left (fun acc l => acc + snd l) levels 0.

(** [levels[-1][0]], for a non-empty list. *)
Definition last_price (levels : list Level) : Q := fst (List.last levels (0, 0)).

(** The result dict of the engine, with its fixed field names. *)
Record ExecutionResult : Type := {
  executed_quantity_base : Q;
  executed_quantity_quote : Q;
  average_price : Q;
  slippage_pct : Q;
  market_impact_pct : Q;
  fee_paid : Q;
  execution_type : string;
  warnings : list string
}.

(** ** fee_model.py: [MakerTakerFeeModel] *)

Record MakerTakerFeeModel : Type := {
  use_ml : bool;
  w1 : Q;
  w2 : Q;
  bias : Q;
  default_maker_fee : Q;
  default_taker_fee : Q
}.

Definition MakerTakerFeeModel_init : MakerTakerFeeModel :=
  {| use_ml := false; w1 := 0.3; w2 := 8; bias := -2.5;
     default_maker_fee := 0.06; default_taker_fee := 0.08 |}.

(** fee_model.py, lines 68-93.  The [execution_type] only selects a log line. *)
Definition calculate_fee (self : MakerTakerFeeModel)
    (order_amount fee_rate : Q) (execution_type : string) : Q :=
  if (Qle_bool order_amount 0 || Qlt_bool fee_rate 0)%bool then 0
  else order_amount * (fee_rate / 100).

(** ** slippage_model.py: [SlippageModel], the part without [**] *)

Record SlippageModel : Type := { use_ml_model : bool }.

(** The value before the floor: [((executed - mid) / mid) * 100] for a buy,
    [((mid - executed) / mid) * 100] otherwise. *)
Definition signed_slippage (side : string) (mid_price executed_price : Q) : Q :=
  if String.eqb (lower side) "buy"
  then ((executed_price - mid_price) / mid_price) * 100
  else ((mid_price - executed_price) / mid_price) * 100.

(** slippage_model.py, lines 40-67.  The division is guarded by the first test. *)
Definition calculate_slippage (self : SlippageModel) (side : string)
    (mid_price executed_price order_size : Q) : Q :=
  if (Qle_bool mid_price 0 || Qle_bool executed_price 0)%bool then 0
  else
    let slippage_pct := signed_slippage side mid_price executed_price in
    Qmax 0 slippage_pct.

(** What one level gives: [(executable_base, executable_quote)].
    slippage_model.py lines 123-129, and the same text in
    execution_engine.py lines 109-117.  The quotient and the product are
    exact here; [Binary64.fill_level] has them rounded. *)
Definition fill_level (side : string) (price quantity remaining : Q) : Py (Q * Q) :=
  if String.eqb (lower side) "buy" then
    let max_executable_quote := price * quantity in
    let executable_quote := Qmin remaining max_executable_quote in
    executable_base ← pydiv executable_quote price;
    Ok (executable_base, executable_quote)
  else
    r ← pydiv remaining price;
    let executable_base := Qmin r quantity in
    let executable_quote := executable_base * price in
    Ok (executable_base, executable_quote).

(** The loop of slippage_model.py, lines 118-134; the state is
    [(remaining_size, total_cost, total_quantity_base)]. *)
Fixpoint slippage_walk (side : string) (levels : list Level)
    (remaining_size total_cost total_quantity_base : Q) : Py (Q * Q * Q) :=
  match levels with
  | [] => Ok (remaining_size, total_cost, total_quantity_base)
  | (price, quantity) :: rest =>
      if Qle_bool remaining_size 0
      then Ok (remaining_size, total_cost, total_quantity_base)
      else
        '(executable_base, executable_quote) ← fill_level side price quantity remaining_size;
        slippage_walk side rest
          (remaining_size - executable_quote)
          (total_cost + executable_quote)
          (total_quantity_base + executable_base)
  end.

(** slippage_model.py, lines 100-147: the average price of the walk, with
    the unfilled remainder priced at the last level, and the mid price. *)
Definition rule_based_prices (side : string) (order_size : Q)
    (order_book : OrderBook) : Py (option (Q * Q)) :=
  best_bid ← best_price order_book "bids";
  best_ask ← best_price order_book "asks";
  if (Qle_bool best_bid 0 || Qle_bool best_ask 0)%bool then Ok None
  else
    let mid_price := (best_bid + best_ask) / 2 in
    let book_side := if String.eqb (lower side) "buy" then "asks" else "bids" in
    levels ← getitem order_book book_side;
    '(remaining_size, total_cost, total_quantity_base) ←
      slippage_walk side levels order_size 0 0;
    '(total_cost, total_quantity_base) ←
      (if Qlt_bool 0 remaining_size then
         match levels with
         | [] => Ok (total_cost, total_quantity_base)
         | _ :: _ =>
             remaining_base ← pydiv remaining_size (last_price levels);
             Ok (total_cost + remaining_size, total_quantity_base + remaining_base)
         end
       else Ok (total_cost, total_quantity_base));
    avg_execution_price ←
      (if Qlt_bool 0 total_quantity_base
       then pydiv total_cost total_quantity_base else Ok 0);
    Ok (Some (mid_price, avg_execution_price)).

(** slippage_model.py, lines 87-150. *)
Definition _estimate_slippage_rule_based (self : SlippageModel) (side : string)
    (order_size : Q) (order_book : OrderBook) : Py Q :=
  prices ← rule_based_prices side order_size order_book;
  match prices with
  | None => Ok 0
  | Some (mid_price, avg_execution_price) =>
      Ok (calculate_slippage self side mid_price avg_execution_price order_size)
  end.

(** ** The models that use the float power operator, and the engine *)

Section Engine.

(** [x ** y] on floats, where it returns a float (the engine only raises a
    positive base to [delta]). *)
Variable pow : Q -> Q -> Q.

(** The state of the module [random] and [random.uniform(a, b)]. *)
Variable rng : Type.
Variable uniform : rng -> Q -> Q -> Q * rng.

(** *** slippage_model.py: the parametric strategy and the dispatch *)

(** slippage_model.py, lines 186-233: six features.  The conditional
    expressions guard every division. *)
Definition _extract_features (self : SlippageModel) (side : string)
    (order_size : Q) (order_book : OrderBook) : Py (list Q) :=
  best_bid ← best_price order_book "bids";
  best_ask ← best_price order_book "asks";
  let mid_price := (best_bid + best_ask) / 2 in
  let spread := best_ask - best_bid in
  let spread_bps := if Qlt_bool 0 mid_price then (spread / mid_price) * 10000 else 0 in
  bids ← getitem order_book "bids";
  asks ← getitem order_book "asks";
  let bid_liquidity := sum_qty bids in
  let ask_liquidity := sum_qty asks in
  let total_liquidity := bid_liquidity + ask_liquidity in
  let imbalance :=
    if Qlt_bool 0 total_liquidity
    then (bid_liquidity - ask_liquidity) / total_liquidity else 0 in
  let book_side := if String.eqb (lower side) "buy" then "asks" else "bids" in
  levels ← getitem order_book book_side;
  let depth_1 := match levels with [] => 0 | (_, qty) :: _ => qty end in
  let depth_3 := if Nat.leb 3 (length levels) then sum_qty (take 3 levels) else depth_1 in
  let depth_5 := if Nat.leb 5 (length levels) then sum_qty (take 5 levels) else depth_3 in
  let relative_size_1 := if Qlt_bool 0 depth_1 then order_size / depth_1 else 10 in
  let relative_size_3 := if Qlt_bool 0 depth_3 then order_size / depth_3 else relative_size_1 in
  let relative_size_5 := if Qlt_bool 0 depth_5 then order_size / depth_5 else relative_size_3 in
  Ok [spread_bps; imbalance; relative_size_1; relative_size_3; relative_size_5;
      if String.eqb (lower side) "buy" then 1 else 0].

(** slippage_model.py, lines 152-184.  The features are computed and not
    used.  A negative base makes [**] return a complex number, which [min]
    cannot order against 5.0; a power above the largest double makes [**]
    raise. *)
Definition _estimate_slippage_ml (self : SlippageModel) (side : string)
    (order_size : Q) (order_book : OrderBook) : Py Q :=
  features ← _extract_features self side order_size order_book;
  let book_side := if String.eqb (lower side) "buy" then "asks" else "bids" in
  levels ← getitem order_book book_side;
  let available_liquidity := sum_qty levels in
  let relative_size :=
    if Qlt_bool 0 available_liquidity then order_size / available_liquidity else 1 in
  if Qlt_bool relative_size 0 then Raise TypeError
  else if Qlt_bool float_max (pow relative_size 1.5) then Raise OverflowError
  else
    let estimated_slippage := 0.5 * pow relative_size 1.5 in
    Ok (Qmin estimated_slippage 5).

(** slippage_model.py, lines 69-85. *)
Definition estimate_slippage (self : SlippageModel) (side : string)
    (order_size : Q) (order_book : OrderBook) : Py Q :=
  if use_ml_model self
  then _estimate_slippage_ml self side order_size order_book
  else _estimate_slippage_rule_based self side order_size order_book.

(** *** impact_model.py: [MarketImpactModel] *)

Record MarketImpactModel : Type := {
  gamma : Q;
  delta : Q;
  adv : gmap string Q
}.

Definition default_adv : gmap string Q :=
  <["BTC-USDT" := 1000000000]> (<["ETH-USDT" := 500000000]> (<["default" := 100000000]> ∅)).

(** impact_model.py, lines 25-44; [adv or {...}] takes the default table
    for [None] and for an empty dict. *)
Definition MarketImpactModel_init (gamma delta : Q)
    (adv : option (gmap string Q)) : MarketImpactModel :=
  {| gamma := gamma; delta := delta;
     adv := match adv with
            | Some t => if bool_decide (t = ∅) then default_adv else t
            | None => default_adv
            end |}.

(** impact_model.py, lines 77-118. *)
Definition _calculate_liquidity_factor (self : MarketImpactModel) (side : string)
    (order_book : OrderBook) : Py Q :=
  best_bid ← best_price order_book "bids";
  best_ask ← best_price order_book "asks";
  if (Qle_bool best_bid 0 || Qle_bool best_ask 0)%bool then Ok 1.5
  else
    let mid_price := (best_bid + best_ask) / 2 in
    spread_bps ← (r ← pydiv (best_ask - best_bid) mid_price; Ok (r * 10000));
    bids ← getitem order_book "bids";
    asks ← getitem order_book "asks";
    let bid_liquidity := sum_qty (take 5 bids) in
    let ask_liquidity := sum_qty (take 5 asks) in
    imbalance_factor ←
      (if String.eqb (lower side) "buy" then
         r ← pydiv (bid_liquidity - ask_liquidity) (bid_liquidity + ask_liquidity);
         Ok (1 + Qmax 0 r)
       else
         r ← pydiv (ask_liquidity - bid_liquidity) (bid_liquidity + ask_liquidity);
         Ok (1 + Qmax 0 r));
    let spread_factor := 1 + (spread_bps / 100) in
    let liquidity_factor := spread_factor * imbalance_factor in
    Ok (Qmin (Qmax 0.5 liquidity_factor) 3).

(** [self.adv.get(symbol, self.adv["default"])]: the default is looked up
    first, as an argument of [get]. *)
Definition adv_for (self : MarketImpactModel) (symbol : string) : Py Q :=
  d ← getitem (adv self) "default";
  Ok (default d (adv self !! symbol)).

(** impact_model.py, lines 46-75. *)
Definition calculate_impact (self : MarketImpactModel) (side : string)
    (order_size : Q) (order_book : OrderBook) (symbol : string) : Py Q :=
  adv ← adv_for self symbol;
  relative_size ← pydiv order_size adv;
  let base_impact_pct := gamma self * pow relative_size (delta self) in
  liquidity_factor ← _calculate_liquidity_factor self side order_book;
  let adjusted_impact := base_impact_pct * liquidity_factor in
  Ok adjusted_impact.

(** impact_model.py, lines 156-169: the method mutates [self.adv] in place;
    here it returns the model after the call. *)
Definition update_adv (self : MarketImpactModel) (symbol : string)
    (new_adv : Q) : MarketImpactModel :=
  if Qle_bool new_adv 0 then self
  else {| gamma := gamma self; delta := delta self;
          adv := <[symbol := new_adv]> (adv self) |}.

(** *** execution_engine.py: [ExecutionEngine] *)

Record ExecutionEngine : Type := {
  slippage_model : SlippageModel;
  impact_model : MarketImpactModel;
  fee_model : MakerTakerFeeModel
}.

(** execution_engine.py, lines 27-32: every model with its defaults. *)
Definition ExecutionEngine_init : ExecutionEngine :=
  {| slippage_model := {| use_ml_model := false |};
     impact_model := MarketImpactModel_init 0.1 0.5 None;
     fee_model := MakerTakerFeeModel_init |}.

(** What a call can read and write besides its arguments: the engine
    object and the state of the random module. *)
Record World : Type := {
  engine : ExecutionEngine;
  rng_state : rng
}.

(** execution_engine.py, lines 262-274. *)
Definition _create_error_result (error_message : string) : ExecutionResult :=
  {| executed_quantity_base := 0;
     executed_quantity_quote := 0;
     average_price := 0;
     slippage_pct := 0;
     market_impact_pct := 0;
     fee_paid := 0;
     execution_type := "fail";
     warnings := [error_message] |}.

(** [not levels] for [order_book[key]] *)
Definition is_empty_list {A : Type} (l : list A) : bool :=
  match l with [] => true | _ :: _ => false end.

(** execution_engine.py, lines 181-214.  [order_book] may be [None];
    [not order_book] also holds for the empty dict. *)
Definition _validate_inputs (side order_type : string) (order_quantity : Q)
    (order_book : option OrderBook) (order_price : option Q) : bool :=
  if negb (in_pair (lower side) "buy" "sell") then false
  else if negb (in_pair (lower order_type) "market" "limit") then false
  else if Qle_bool order_quantity 0 then false
  else
    match order_book with
    | None => false
    | Some book =>
        if bool_decide (book = ∅) then false
        else
          match book !! "bids", book !! "asks" with
          | Some bids, Some asks =>
              if (is_empty_list bids || is_empty_list asks)%bool then false
              else if (String.eqb (lower order_type) "limit" &&
                       match order_price with
                       | None => true
                       | Some p => Qle_bool p 0
                       end)%bool then false
              else true
          | _, _ => false
          end
    end.

(** The inner loop of execution_engine.py, lines 243-257, over one side. *)
Fixpoint perturb_levels (direction modification_factor : Q)
    (levels : list Level) (g : rng) : list Level * rng :=
  match levels with
  | [] => ([], g)
  | (price, quantity) :: rest =>
      let '(u1, g1) := uniform g 0 0.5 in
      let price_change := price * modification_factor * u1 * direction in
      let new_price := price + price_change in
      let '(u2, g2) := uniform g1 (-0.5) 0.5 in
      let qty_change := quantity * modification_factor * u2 in
      let new_quantity := Qmax 0.0001 (quantity + qty_change) in
      let '(rest', g3) := perturb_levels direction modification_factor rest g2 in
      ((new_price, new_quantity) :: rest', g3)
  end.

(** execution_engine.py, lines 216-260: a perturbed copy of the book, bids
    first and asks second; the caller's book is a value and stays as it is. *)
Definition _apply_latency_simulation (order_book : OrderBook) (latency : Z)
    (w : World) : Py OrderBook * World :=
  let stale_book := order_book in
  let modification_factor := Qmin (inject_Z latency / 1000) 0.1 in
  match stale_book !! "bids" with
  | None => (Raise (KeyError "bids"), w)
  | Some bids =>
      let '(bids', g1) := perturb_levels (-1) modification_factor bids (rng_state w) in
      let stale_book := <["bids" := bids']> stale_book in
      let w1 := {| engine := engine w; rng_state := g1 |} in
      match stale_book !! "asks" with
      | None => (Raise (KeyError "asks"), w1)
      | Some asks =>
          let '(asks', g2) := perturb_levels 1 modification_factor asks g1 in
          let stale_book := <["asks" := asks']> stale_book in
          (Ok stale_book, {| engine := engine w; rng_state := g2 |})
      end
  end.

(** [a >= b] and [a <= b] where [a] may be [None]. *)
Definition ge_opt (a : option Q) (b : Q) : Py bool :=
  match a with Some x => Ok (Qle_bool b x) | None => Raise TypeError end.
Definition le_opt (a : option Q) (b : Q) : Py bool :=
  match a with Some x => Ok (Qle_bool x b) | None => Raise TypeError end.
Definition gt_opt (a : Q) (b : option Q) : Py bool :=
  match b with Some x => Ok (Qlt_bool x a) | None => Raise TypeError end.
Definition lt_opt (a : Q) (b : option Q) : Py bool :=
  match b with Some x => Ok (Qlt_bool a x) | None => Raise TypeError end.

(** execution_engine.py, lines 78-86, with Python's short-circuit order. *)
Definition is_marketable (side order_type : string) (order_price : option Q)
    (best_bid best_ask : Q) : Py bool :=
  if String.eqb (lower order_type) "limit" then
    c1 ← (if String.eqb (lower side) "buy" then ge_opt order_price best_ask else Ok false);
    if (c1 : bool) then Ok true
    else if String.eqb (lower side) "sell" then le_opt order_price best_bid else Ok false
  else Ok true.

(** execution_engine.py, lines 103-106: the limit price ends the walk. *)
Definition beyond_limit (side order_type : string) (order_price : option Q)
    (price : Q) : Py bool :=
  if String.eqb (lower order_type) "limit" then
    c1 ← (if String.eqb (lower side) "buy" then gt_opt price order_price else Ok false);
    if (c1 : bool) then Ok true
    else if String.eqb (lower side) "sell" then lt_opt price order_price else Ok false
  else Ok false.

(** The loop of execution_engine.py, lines 99-126; the state is
    [(executed_quantity_base, executed_quantity_quote, remaining_quantity_quote)]. *)
Fixpoint walk_book (side order_type : string) (order_price : option Q)
    (levels : list Level)
    (executed_quantity_base executed_quantity_quote remaining_quantity_quote : Q)
    : Py (Q * Q * Q) :=
  match levels with
  | [] => Ok (executed_quantity_base, executed_quantity_quote, remaining_quantity_quote)
  | (price, quantity) :: rest =>
      stop ← beyond_limit side order_type order_price price;
      if (stop : bool)
      then Ok (executed_quantity_base, executed_quantity_quote, remaining_quantity_quote)
      else
        '(executable_base, executable_quote) ←
          fill_level side price quantity remaining_quantity_quote;
        let executed_quantity_base := executed_quantity_base + executable_base in
        let executed_quantity_quote := executed_quantity_quote + executable_quote in
        let remaining_quantity_quote := remaining_quantity_quote - executable_quote in
        if Qle_bool remaining_quantity_quote 0.01
        then Ok (executed_quantity_base, executed_quantity_quote, remaining_quantity_quote)
        else walk_book side order_type order_price rest
               executed_quantity_base executed_quantity_quote remaining_quantity_quote
  end.

Definition default_fee_profile : gmap string Q :=
  <["maker" := 0.06]> (<["taker" := 0.08]> ∅).

(** The state of the fill after execution_engine.py, lines 69-133. *)
Record Fill : Type := {
  fill_mid_price : Q;
  fill_base : Q;
  fill_quote : Q;
  fill_type : string;
  fill_warnings : list string
}.

(** execution_engine.py, lines 69-133: reference prices, marketability and
    the walk over the contra side. *)
Definition fill_phase (side order_type : string) (order_quantity : Q)
    (order_book : OrderBook) (order_price : option Q) : Py Fill :=
  let book_side := if String.eqb (lower side) "buy" then "asks" else "bids" in
  best_bid ← best_price order_book "bids";
  best_ask ← best_price order_book "asks";
  let mid_price := (best_bid + best_ask) / 2 in
  marketable ← is_marketable side order_type order_price best_bid best_ask;
  if (marketable : bool) then
    levels ← getitem order_book book_side;
    '(executed_quantity_base, executed_quantity_quote, _) ←
      walk_book side order_type order_price levels 0 0 order_quantity;
    Ok {| fill_mid_price := mid_price;
          fill_base := executed_quantity_base;
          fill_quote := executed_quantity_quote;
          fill_type := "taker";
          fill_warnings := [] |}
  else if String.eqb (lower order_type) "limit" then
    Ok {| fill_mid_price := mid_price; fill_base := 0; fill_quote := 0;
          fill_type := "maker";
          fill_warnings := ["Limit order placed but not immediately executed"] |}
  else
    Ok {| fill_mid_price := mid_price; fill_base := 0; fill_quote := 0;
          fill_type := "fail"; fill_warnings := [] |}.

(** execution_engine.py, lines 134-137. *)
Definition is_partial (executed_quantity_quote order_quantity : Q) : bool :=
  (Qlt_bool 0 executed_quantity_quote && Qlt_bool executed_quantity_quote order_quantity)%bool.

Definition no_execution_message : string :=
  "No execution: insufficient liquidity or non-marketable limit order".

(** execution_engine.py, lines 69-179: the call after validation and the
    latency step, on the book it then uses. *)
Definition simulate_on_book (self : ExecutionEngine) (side order_type : string)
    (order_quantity : Q) (order_book : OrderBook) (order_price : option Q)
    (user_fee_profile : gmap string Q) : Py ExecutionResult :=
  f ← fill_phase side order_type order_quantity order_book order_price;
  let mid_price := fill_mid_price f in
  let executed_quantity_base := fill_base f in
  let executed_quantity_quote := fill_quote f in
  let '(execution_type, warnings) :=
    if is_partial executed_quantity_quote order_quantity
    then ("partial",
          (fill_warnings f ++
           ["Order partially filled: " +:+ format_2f executed_quantity_quote +:+ "/" +:+
            format_2f order_quantity +:+ " partial"])%list)
    else (fill_type f, fill_warnings f) in
  if Qle_bool executed_quantity_quote 0
  then Ok (_create_error_result no_execution_message)
  else
    let average_price :=
      if Qlt_bool 0 executed_quantity_base
      then executed_quantity_quote / executed_quantity_base else 0 in
    let slippage_pct :=
      calculate_slippage (slippage_model self) side mid_price average_price
        executed_quantity_quote in
    impact_pct ←
      calculate_impact (impact_model self) side executed_quantity_quote order_book "default";
    fee_rate ←
      (if String.eqb execution_type "taker"
       then getitem user_fee_profile "taker" else getitem user_fee_profile "maker");
    let fee_paid :=
      calculate_fee (fee_model self) executed_quantity_quote fee_rate execution_type in
    let warnings :=
      if Qlt_bool 1 impact_pct
      then (warnings ++ ["Large market impact: " +:+ format_2f impact_pct +:+ "%"])%list
      else warnings in
    Ok {| executed_quantity_base := pyround executed_quantity_base 8;
          executed_quantity_quote := pyround executed_quantity_quote 2;
          average_price := pyround average_price 2;
          slippage_pct := pyround slippage_pct 2;
          market_impact_pct := pyround impact_pct 2;
          fee_paid := pyround fee_paid 2;
          execution_type := execution_type;
          warnings := warnings |}.

(** execution_engine.py, lines 61-63: the book the call goes on with. *)
Definition latency_step (order_book : OrderBook) (latency : Z) (w : World)
    : Py OrderBook * World :=
  if (0 <? latency)%Z
  then _apply_latency_simulation order_book latency w
  else (Ok order_book, w).

(** execution_engine.py, lines 34-179.  Subscripting a book that is [None]
    would raise [TypeError]; validation returns before that. *)
Definition simulate_order_execution (side order_type : string)
    (order_quantity : Q) (order_book : option OrderBook)
    (order_price : option Q) (latency : Z)
    (user_fee_profile : option (gmap string Q)) (w : World)
    : Py ExecutionResult * World :=
  if negb (_validate_inputs side order_type order_quantity order_book order_price)
  then (Ok (_create_error_result "Invalid input parameters"), w)
  else
    match order_book with
    | None => (Raise TypeError, w)
    | Some book =>
        let '(stale, w1) := latency_step book latency w in
        let user_fee_profile := default default_fee_profile user_fee_profile in
        (book' ← stale;
         simulate_on_book (engine w1) side order_type order_quantity book'
           order_price user_fee_profile,
         w1)
    end.

End Engine.

Arguments World : clear implicits.
Arguments engine {rng} w.
Arguments rng_state {rng} w.

(** ** Conditions on inputs used in the statements *)

(** The inputs that validation is meant to reject. *)
Definition violates_validation (side order_type : string) (order_quantity : Q)
    (order_book : option OrderBook) (order_price : option Q) : Prop :=
  (lower side <> "buy" /\ lower side <> "sell") \/
  (lower order_type <> "market" /\ lower order_type <> "limit") \/
  order_quantity <= 0 \/
  order_book = None \/
  (exists book, order_book = Some book /\
     (book !! "bids" = None \/ book !! "bids" = Some [] \/
      book !! "asks" = None \/ book !! "asks" = Some [])) \/
  (lower order_type = "limit" /\
     (order_price = None \/ exists p, order_price = Some p /\ p <= 0)).

(** A limit order that does not cross a book with both sides present. *)
Definition non_marketable_limit (side order_type : string)
    (order_book : OrderBook) (order_price : Q) : Prop :=
  lower order_type = "limit" /\
  exists bids asks,
    order_book !! "bids" = Some bids /\ order_book !! "asks" = Some asks /\
    bids <> [] /\ asks <> [] /\
    ((lower side = "buy" /\ order_price < first_price asks) \/
     (lower side = "sell" /\ first_price bids < order_price)).

(** The result is the all-zero [fail] result with one warning. *)
Definition is_fail_result (r : ExecutionResult) (message : string) : Prop :=
  execution_type r = "fail" /\
  executed_quantity_base r == 0 /\ executed_quantity_quote r == 0 /\
  average_price r == 0 /\ slippage_pct r == 0 /\
  market_impact_pct r == 0 /\ fee_paid r == 0 /\
  warnings r = [message].

(** The side of the book an order walks: asks for a buy, bids otherwise. *)
Definition contra_side (side : string) : string :=
  if String.eqb (lower side) "buy" then "asks" else "bids".

(** [+1] where the walked prices should go up (asks), [-1] where down (bids). *)
Definition direction (side : string) : Q :=
  if String.eqb (lower side) "buy" then 1 else -1.

(** Positive prices and non-negative quantities, as the data model has them. *)
Definition levels_ok (levels : list Level) : Prop :=
  Forall (fun l : Level => 0 < fst l /\ 0 <= snd l) levels.

(** Prices that never move against [sgn], starting no better than [bound]. *)
Fixpoint sorted_from (sgn bound : Q) (levels : list Level) : Prop :=
  match levels with
  | [] => True
  | (price, _) :: rest => sgn * bound <= sgn * price /\ sorted_from sgn price rest
  end.

(** The level is not past the limit price (the loop does not [break] on it). *)
Definition within_limit (side order_type : string) (order_price : option Q)
    (price : Q) : bool :=
  match beyond_limit side order_type order_price price with
  | Ok false => true
  | _ => false
  end.

(** The limit price lets the order trade at [price]: at or below the limit
    for a buy, at or above it for a sell; a market order trades at any
    price. *)
Definition price_allowed (side order_type : string) (order_price : option Q)
    (price : Q) : bool :=
  if String.eqb (lower order_type) "limit" then
    if String.eqb (lower side) "buy" then
      match order_price with Some limit => Qle_bool price limit | None => false end
    else if String.eqb (lower side) "sell" then
      match order_price with Some limit => Qle_bool limit price | None => false end
    else true
  else true.

(** The levels in book order up to the first one the limit price excludes. *)
Fixpoint levels_within_limit (side order_type : string) (order_price : option Q)
    (levels : list Level) : list Level :=
  match levels with
  | [] => []
  | (price, quantity) :: rest =>
      if price_allowed side order_type order_price price
      then (price, quantity) :: levels_within_limit side order_type order_price rest
      else []
  end.

(** Level after level to the end of the list, with no early exit: the
    totals of a walk that leaves no level out. *)
Fixpoint fill_all (side : string) (levels : list Level)
    (executed_quantity_base executed_quantity_quote remaining_quantity_quote : Q)
    : Py (Q * Q * Q) :=
  match levels with
  | [] => Ok (executed_quantity_base, executed_quantity_quote, remaining_quantity_quote)
  | (price, quantity) :: rest =>
      '(executable_base, executable_quote) ←
        fill_level side price quantity remaining_quantity_quote;
      fill_all side rest
        (executed_quantity_base + executable_base)
        (executed_quantity_quote + executable_quote)
        (remaining_quantity_quote - executable_quote)
  end.

(** What a level gives when the order outlasts it. *)
Definition full_fill (side : string) (price quantity : Q) : Q * Q :=
  if String.eqb (lower side) "buy"
  then (price * quantity / price, price * quantity)
  else (quantity, quantity * price).

(** The order crosses the book: a market order, a buy limit at or above
    the best ask, a sell limit at or below the best bid. *)
Definition crosses (side order_type : string) (order_price : option Q)
    (bids asks : list Level) : Prop :=
  lower order_type <> "limit" \/
  exists limit,
    order_price = Some limit /\
    ((lower side = "buy" /\ first_price asks <= limit) \/
     (lower side = "sell" /\ limit <= first_price bids)).

(** What the statements ask of [**] at one exponent: non-negative and
    non-decreasing in a positive base. *)
Definition power_monotone (pow : Q -> Q -> Q) (exponent : Q) : Prop :=
  forall x y : Q, 0 < x -> x <= y -> 0 <= pow x exponent /\ pow x exponent <= pow y exponent.

(** The impact model has a non-negative [gamma] and a positive default ADV,
    as [__init__] and [update_adv] leave it. *)
Definition impact_model_ok (m : MarketImpactModel) : Prop :=
  0 <= gamma m /\ forall a, adv m !! "default" = Some a -> 0 < a.

(** [random.uniform(a, b)] returns a value between [a] and [b]. *)
Definition uniform_in_range (rng : Type) (uniform : rng -> Q -> Q -> Q * rng) : Prop :=
  forall (g : rng) (a b : Q), a <= b -> a <= fst (uniform g a b) <= b.

(** ** Concrete runtime and inputs for the examples *)

(** A fixed-point square root, exact to eight decimals. *)
Definition fixed_sqrt (x : Q) : Q :=
  inject_Z (Z.sqrt (Qfloor (x * 10000000000000000))) / 100000000.

(** A stand-in for [**]: the two exponents the models use. *)
Definition demo_pow (x y : Q) : Q :=
  if Qeq_bool y 0.5 then fixed_sqrt x
  else if Qeq_bool y 1.5 then x * fixed_sqrt x
  else x.

(** A stand-in for [random.uniform]: a linear congruential state. *)
Definition demo_uniform (g : Z) (a b : Q) : Q * Z :=
  (a + (b - a) * (inject_Z (g mod 1000) / 1000), ((1103515245 * g + 12345) mod 2147483648)%Z).

Definition demo_world : World Z :=
  {| engine := ExecutionEngine_init; rng_state := 42%Z |}.

(** The book of test_simulation.py. *)
Definition mock_order_book : OrderBook :=
  <["bids" := [(27350.5, 1.5); (27345, 2); (27340, 3); (27335, 4); (27330, 5)]]>
  (<["asks" := [(27355, 1); (27360, 2); (27365, 3); (27370, 4); (27375, 5)]]> ∅).

(** One level on each side. *)
Definition thin_book : OrderBook :=
  <["bids" := [(99, 1)]]> (<["asks" := [(100, 1)]]> ∅).

Definition vip_profile : gmap string Q :=
  <["maker" := 0.01]> (<["taker" := 0.03]> ∅).

(** The [market_maker] profile of fee_model.py: a maker rebate. *)
Definition rebate_profile : gmap string Q :=
  <["maker" := -0.01]> (<["taker" := 0.02]> ∅).

(** A crossed book: the best ask is below the best bid. *)
Definition crossed_book : OrderBook :=
  <["bids" := [(100, 1)]]> (<["asks" := [(90, 1)]]> ∅).

(** An ask side that holds 0.004 of quote in all. *)
Definition dust_book : OrderBook :=
  <["bids" := [(99, 1)]]> (<["asks" := [(100, 0.00004)]]> ∅).

(** ** More of the models *)

(** *** fee_model.py: rates and estimates *)

(** A value of a user profile: the name of a VIP tier or a number. *)
Inductive PyVal : Type :=
| PyStr (s : string)
| PyNum (x : Q).

(** fee_model.py, lines 50-57: [(volume, maker, taker)], as [__init__]
    sets [self.fee_tiers]; no method assigns it again. *)
Definition fee_tiers : list (Q * Q * Q) :=
  [(0, 0.06, 0.08); (10000, 0.05, 0.07); (100000, 0.04, 0.06);
   (1000000, 0.03, 0.05); (10000000, 0.02, 0.04); (100000000, 0.01, 0.03)].

(** fee_model.py, lines 60-64: [(maker, taker)] per VIP name, as
    [__init__] sets [self.vip_profiles]. *)
Definition vip_profiles : gmap string (Q * Q) :=
  <["institutional" := (0.01, 0.03)]>
  (<["market_maker" := (-0.01, 0.02)]>
  (<["retail" := (0.06, 0.08)]> ∅)).

(** fee_model.py, lines 232-250. *)
Definition _get_tier_multiplier (self : MakerTakerFeeModel) (order_size : Q) : Q :=
  if Qlt_bool 1000000 order_size then 0.7
  else if Qlt_bool 100000 order_size then 0.8
  else if Qlt_bool 10000 order_size then 0.9
  else 1.

(** The loop of fee_model.py, lines 276-280: the last tier reached before
    the first one above the volume. *)
Fixpoint tier_scan (volume : Q) (tiers : list (Q * Q * Q))
    (applicable_tier : Q * Q * Q) : Q * Q * Q :=
  match tiers with
  | [] => applicable_tier
  | tier :: rest =>
      if Qle_bool (fst (fst tier)) volume
      then tier_scan volume rest tier
      else applicable_tier
  end.

(** fee_model.py, lines 252-285.  Comparing a volume that is a string with
    a number raises [TypeError]. *)
Definition _get_fee_rates (self : MakerTakerFeeModel)
    (user_profile : option (gmap string PyVal)) : Py (Q * Q) :=
  match user_profile with
  | None => Ok (default_maker_fee self, default_taker_fee self)
  | Some profile =>
      if bool_decide (profile = ∅)
      then Ok (default_maker_fee self, default_taker_fee self)
      else
        let vip :=
          match profile !! "vip_tier" with
          | Some (PyStr name) => vip_profiles !! name
          | _ => None
          end in
        match vip with
        | Some (maker, taker) => Ok (maker, taker)
        | None =>
            match profile !! "trading_volume" with
            | Some (PyNum volume) =>
                let applicable_tier :=
                  tier_scan volume fee_tiers (hd (0, 0, 0) fee_tiers) in
                Ok (snd (fst applicable_tier), snd applicable_tier)
            | Some (PyStr _) => Raise TypeError
            | None => Ok (default_maker_fee self, default_taker_fee self)
            end
        end
  end.

(** [not user_profile] *)
Definition profile_missing (user_profile : option (gmap string PyVal)) : bool :=
  match user_profile with
  | None => true
  | Some profile => bool_decide (profile = ∅)
  end.

(** fee_model.py, lines 115-163.  A limit order reads both best prices
    and then takes the maker side whatever they are. *)
Definition _estimate_rule_based (self : MakerTakerFeeModel) (order_size : Q)
    (side : string) (order_book : option OrderBook) (order_type : string)
    (user_profile : option (gmap string PyVal)) : Py Q :=
  is_taker ←
    (if String.eqb (lower order_type) "market" then Ok true
     else
       match order_book with
       | None => Raise TypeError
       | Some book =>
           best_bid ← best_price book "bids";
           best_ask ← best_price book "asks";
           Ok false
       end);
  '(maker_fee, taker_fee) ← _get_fee_rates self user_profile;
  let '(maker_fee, taker_fee) :=
    if profile_missing user_profile
    then
      let tier_multiplier := _get_tier_multiplier self order_size in
      (maker_fee * tier_multiplier, taker_fee * tier_multiplier)
    else (maker_fee, taker_fee) in
  let fee_pct := if (is_taker : bool) then taker_fee else maker_fee in
  Ok fee_pct.

(** fee_model.py, lines 287-323. *)
Definition predict_execution_type (self : MakerTakerFeeModel) (side order_type : string)
    (order_price : option Q) (order_book : OrderBook) : Py string :=
  if String.eqb (lower order_type) "market" then Ok "taker"
  else
    bids ← getitem order_book "bids";
    if is_empty_list bids then Ok "maker"
    else
      asks ← getitem order_book "asks";
      if is_empty_list asks then Ok "maker"
      else
        let best_bid := first_price bids in
        let best_ask := first_price asks in
        if String.eqb (lower side) "buy" then
          c ← ge_opt order_price best_ask;
          Ok (if (c : bool) then "taker" else "maker")
        else
          c ← le_opt order_price best_bid;
          Ok (if (c : bool) then "taker" else "maker").

Section Transcendental.

(** [math.exp] and [math.log]: [None] stands for the [OverflowError] of
    the first and the [ValueError] of the second (a non-positive argument). *)
Variable exp : Q -> option Q.
Variable log : Q -> option Q.

(** fee_model.py, lines 217-230: only [OverflowError] is caught. *)
Definition _sigmoid (self : MakerTakerFeeModel) (x : Q) : Py Q :=
  match exp (- x) with
  | Some e => pydiv 1 (1 + e)
  | None => Ok (if Qlt_bool x 0 then 0 else 1)
  end.

(** fee_model.py, lines 180-206: the probability of a taker fill. *)
Definition prob_taker (self : MakerTakerFeeModel) (order_size : Q)
    (order_book : option OrderBook) (order_type : string) : Py Q :=
  if String.eqb (lower order_type) "market" then Ok 1
  else
    match order_book with
    | None => Ok 0.5
    | Some book =>
        if bool_decide (book = ∅) then Ok 0.5
        else
          match book !! "bids", book !! "asks" with
          | Some bids, Some asks =>
              let best_bid := first_price bids in
              let best_ask := first_price asks in
              if (Qle_bool best_bid 0 || Qle_bool best_ask 0)%bool then Ok 0.5
              else
                let spread := best_ask - best_bid in
                let log_order_size := default 0 (log (Qmax 1 order_size)) in
                let logit := w1 self * log_order_size + w2 self * spread + bias self in
                _sigmoid self logit
          | _, _ => Ok 0.5
          end
    end.

(** fee_model.py, lines 165-215. *)
Definition _estimate_ml (self : MakerTakerFeeModel) (order_size : Q)
    (side : string) (order_book : option OrderBook) (order_type : string)
    (user_profile : option (gmap string PyVal)) : Py Q :=
  prob ← prob_taker self order_size order_book order_type;
  '(maker_fee, taker_fee) ← _get_fee_rates self user_profile;
  let expected_fee := prob * taker_fee + (1 - prob) * maker_fee in
  Ok (pyround expected_fee 4).

(** fee_model.py, lines 95-113. *)
Definition estimate (self : MakerTakerFeeModel) (order_size : Q)
    (side : string) (order_book : option OrderBook) (order_type : string)
    (user_profile : option (gmap string PyVal)) : Py Q :=
  if use_ml self
  then _estimate_ml self order_size side order_book order_type user_profile
  else _estimate_rule_based self order_size side order_book order_type user_profile.

End Transcendental.

(** *** impact_model.py: the two components *)

Section Components.

Variable pow : Q -> Q -> Q.

(** impact_model.py, lines 120-136; [**] binds tighter than [*]. *)
Definition estimate_permanent_impact (self : MarketImpactModel) (order_size : Q)
    (symbol : string) : Py Q :=
  adv ← adv_for self symbol;
  let permanent_factor := 0.1 in
  relative_size ← pydiv order_size adv;
  let permanent_impact := permanent_factor * gamma self * pow relative_size (delta self) in
  Ok permanent_impact.

(** impact_model.py, lines 138-154. *)
Definition estimate_temporary_impact (self : MarketImpactModel) (order_size : Q)
    (symbol : string) : Py Q :=
  adv ← adv_for self symbol;
  let temporary_factor := 0.9 in
  relative_size ← pydiv order_size adv;
  let temporary_impact := temporary_factor * gamma self * pow relative_size (delta self) in
  Ok temporary_impact.

End Components.

(** ** Conditions used in the further statements *)

(** [math.exp] returns positive values. *)
Definition exp_positive (exp : Q -> option Q) : Prop :=
  forall x e, exp x = Some e -> 0 < e.

(** A level after the latency step against the level before it: the price
    moves at most 5% in [direction] and the quantity is at least 0.0001. *)
Definition perturbed (direction : Q) (old new : Level) : Prop :=
  0.0001 <= snd new /\
  (0 <= fst old ->
   direction * fst old <= direction * fst new /\
   direction * fst new <= direction * fst old + 0.05 * fst old).

(** ** Further concrete inputs *)

(** Five empty ask levels before one that holds quantity. *)
Definition hollow_book : OrderBook :=
  <["bids" := [(99, 0)]]>
  (<["asks" := [(100, 0); (101, 0); (102, 0); (103, 0); (104, 0); (105, 1)]]> ∅).

(** A stand-in for [math.exp]: [2 ** floor(x)] up to 2 ** 1023, then overflow. *)
Definition demo_exp (x : Q) : option Q :=
  let n := Qfloor x in
  if (1023 <? n)%Z then None
  else if (0 <=? n)%Z then Some (inject_Z (2 ^ n))
  else Some (1 / inject_Z (2 ^ (- n))).

(** A stand-in for [math.log]: the bit length, for a positive argument. *)
Definition demo_log (x : Q) : option Q :=
  if Qlt_bool 0 x then Some (inject_Z (Z.log2 (Qfloor x))) else None.

Definition volume_profile (volume : Q) : gmap string PyVal :=
  <["trading_volume" := PyNum volume]> ∅.

(** ** The fill in binary64

    The same lines of the engine on doubles: Rocq's primitive floats are
    IEEE 754 binary64 with round-to-nearest-even, as Python's [float].  The
    module holds the part of a call that the claims on amounts and slippage
    depend on; the impact and the fee go through [**] and are left to the
    main model. *)

Module Binary64.

Definition Level : Type := (float * float)%type.

(** The exact value of a finite double. *)
Definition exact (x : float) : Q :=
  match Prim2SF x with
  | S754_finite s m e =>
      let scale :=
        if (0 <=? e)%Z then inject_Z (2 ^ e) else 1 / inject_Z (2 ^ (- e)) in
      let v := inject_Z (Z.pos m) * scale in
      if s then - v else v
  | _ => 0
  end.

(** [round(x, ndigits)] on a double: the decimal nearest to the exact value
    of [x], ties to even; Python returns the double nearest to that decimal. *)
Definition round (x : float) (ndigits : nat) : Q := pyround (exact x) ndigits.

(** [min(a, b)] and [max(a, b)]: the first argument unless the second is
    strictly smaller (larger). *)
Definition min (a b : float) : float := if PrimFloat.ltb b a then b else a.
Definition max (a b : float) : float := if PrimFloat.ltb a b then b else a.

Definition div (a b : float) : Py float :=
  if PrimFloat.eqb b 0%float then Raise ZeroDivisionError else Ok (PrimFloat.div a b).

(** execution_engine.py, lines 108-116. *)
Definition fill_level (side : string) (price quantity remaining : float)
    : Py (float * float) :=
  if String.eqb (lower side) "buy" then
    let max_executable_quote := PrimFloat.mul price quantity in
    let executable_quote := min remaining max_executable_quote in
    executable_base ← div executable_quote price;
    Ok (executable_base, executable_quote)
  else
    r ← div remaining price;
    let executable_base := min r quantity in
    let executable_quote := PrimFloat.mul executable_base price in
    Ok (executable_base, executable_quote).

(** execution_engine.py, lines 103-106. *)
Definition beyond_limit (side order_type : string) (order_price : option float)
    (price : float) : Py bool :=
  if String.eqb (lower order_type) "limit" then
    c1 ← (if String.eqb (lower side) "buy"
          then match order_price with
               | Some l => Ok (PrimFloat.ltb l price) | None => Raise TypeError end
          else Ok false);
    if (c1 : bool) then Ok true
    else if String.eqb (lower side) "sell"
         then match order_price with
              | Some l => Ok (PrimFloat.ltb price l) | None => Raise TypeError end
         else Ok false
  else Ok false.

(** The loop of execution_engine.py, lines 99-126. *)
Fixpoint walk_book (side order_type : string) (order_price : option float)
    (levels : list Level)
    (executed_quantity_base executed_quantity_quote remaining_quantity_quote : float)
    : Py (float * float * float) :=
  match levels with
  | [] => Ok (executed_quantity_base, executed_quantity_quote, remaining_quantity_quote)
  | (price, quantity) :: rest =>
      stop ← beyond_limit side order_type order_price price;
      if (stop : bool)
      then Ok (executed_quantity_base, executed_quantity_quote, remaining_quantity_quote)
      else
        '(executable_base, executable_quote) ←
          fill_level side price quantity remaining_quantity_quote;
        let executed_quantity_base := PrimFloat.add executed_quantity_base executable_base in
        let executed_quantity_quote := PrimFloat.add executed_quantity_quote executable_quote in
        let remaining_quantity_quote := PrimFloat.sub remaining_quantity_quote executable_quote in
        if PrimFloat.leb remaining_quantity_quote 0.01%float
        then Ok (executed_quantity_base, executed_quantity_quote, remaining_quantity_quote)
        else walk_book side order_type order_price rest
               executed_quantity_base executed_quantity_quote remaining_quantity_quote
  end.

(** slippage_model.py, lines 40-67. *)
Definition calculate_slippage (side : string) (mid_price executed_price : float) : float :=
  if (PrimFloat.leb mid_price 0 || PrimFloat.leb executed_price 0)%bool then 0%float
  else
    let slippage_pct :=
      if String.eqb (lower side) "buy"
      then PrimFloat.mul (PrimFloat.div (PrimFloat.sub executed_price mid_price) mid_price) 100
      else PrimFloat.mul (PrimFloat.div (PrimFloat.sub mid_price executed_price) mid_price) 100 in
    max 0 slippage_pct.

(** What a result holds of the fill. *)
Record Report : Type := {
  filled_quote : float;
  executed_quantity_quote : Q;
  average_price : Q;
  slippage_pct : Q;
  execution_type : string
}.

Definition first_price (levels : list Level) : float :=
  match levels with [] => 0%float | (p, _) :: _ => p end.

(** execution_engine.py, lines 78-86. *)
Definition is_marketable (side order_type : string) (order_price : option float)
    (best_bid best_ask : float) : Py bool :=
  if String.eqb (lower order_type) "limit" then
    c1 ← (if String.eqb (lower side) "buy"
          then match order_price with
               | Some l => Ok (PrimFloat.leb best_ask l) | None => Raise TypeError end
          else Ok false);
    if (c1 : bool) then Ok true
    else if String.eqb (lower side) "sell"
         then match order_price with
              | Some l => Ok (PrimFloat.leb l best_bid) | None => Raise TypeError end
         else Ok false
  else Ok true.

(** execution_engine.py, lines 69-147 and 167-172, on a valid input at
    latency 0, the book given by its two sides: the walk, the label, the
    average price and the slippage, which do not go through the impact or
    the fee model; [None] is the return of line 141. *)
Definition simulate_fill (side order_type : string) (order_quantity : float)
    (bids asks : list Level) (order_price : option float) : Py (option Report) :=
  let levels := if String.eqb (lower side) "buy" then asks else bids in
  let best_bid := first_price bids in
  let best_ask := first_price asks in
  let mid_price := PrimFloat.div (PrimFloat.add best_bid best_ask) 2 in
  marketable ← is_marketable side order_type order_price best_bid best_ask;
  '(executed_quantity_base, executed_quantity_quote, _) ←
    (if (marketable : bool)
     then walk_book side order_type order_price levels 0 0 order_quantity
     else Ok (0%float, 0%float, order_quantity));
  let execution_type :=
    if (PrimFloat.ltb 0 executed_quantity_quote &&
        PrimFloat.ltb executed_quantity_quote order_quantity)%bool
    then "partial" else "taker" in
  if PrimFloat.leb executed_quantity_quote 0 then Ok None
  else
    average_price ←
      (if PrimFloat.ltb 0 executed_quantity_base
       then div executed_quantity_quote executed_quantity_base else Ok 0%float);
    let slippage_pct := calculate_slippage side mid_price average_price in
    Ok (Some {| filled_quote := executed_quantity_quote;
                executed_quantity_quote := round executed_quantity_quote 2;
                average_price := round average_price 2;
                slippage_pct := round slippage_pct 2;
                execution_type := execution_type |}).

End Binary64.

(** * Properties *)

(** ** The runtime helpers *)

Lemma Qlt_bool_iff (a b : Q) : Qlt_bool a b = true <-> a < b.
Proof.
  unfold Qlt_bool. rewrite negb_true_iff.
  destruct (Qle_bool b a) eqn:E.
  - apply Qle_bool_iff in E. split; [discriminate | intros H; lra].
  - split; [intros _ | reflexivity].
    apply Qnot_le_lt. intros H. apply Qle_bool_iff in H. congruence.
Qed.

Lemma Qlt_bool_false (a b : Q) : Qlt_bool a b = false <-> b <= a.
Proof.
  unfold Qlt_bool. rewrite negb_false_iff. apply Qle_bool_iff.
Qed.

Lemma Qle_bool_false (a b : Q) : Qle_bool a b = false <-> b < a.
Proof.
  rewrite <- Qlt_bool_iff. unfold Qlt_bool.
  destruct (Qle_bool a b); simpl; split; congruence.
Qed.

Lemma in_pair_true (x a b : string) : in_pair x a b = true <-> x = a \/ x = b.
Proof.
  unfold in_pair. rewrite orb_true_iff, !String.eqb_eq. tauto.
Qed.

Lemma round_half_even_floor (x : Q) :
  (Qfloor x <= round_half_even x <= Qfloor x + 1)%Z.
Proof.
  unfold round_half_even.
  destruct (Qcompare _ _); [destruct (Z.even _) | |]; lia.
Qed.

Lemma round_half_even_mono (x y : Q) :
  x <= y -> (round_half_even x <= round_half_even y)%Z.
Proof.
  intros Hxy.
  pose proof (Qfloor_resp_le _ _ Hxy) as Hf.
  destruct (Z.eq_dec (Qfloor x) (Qfloor y)) as [E | N].
  - unfold round_half_even. rewrite E.
    destruct (Qcompare_spec (x - inject_Z (Qfloor y)) (1 # 2));
      destruct (Qcompare_spec (y - inject_Z (Qfloor y)) (1 # 2));
      try (destruct (Z.even (Qfloor y))); try lia; exfalso; lra.
  - pose proof (round_half_even_floor x). pose proof (round_half_even_floor y). lia.
Qed.

Lemma pyround_mono (x y : Q) (n : nat) : x <= y -> pyround x n <= pyround y n.
Proof.
  intros H. unfold pyround, Qle. simpl.
  apply Z.mul_le_mono_nonneg_r; [lia |].
  apply round_half_even_mono.
  apply Qmult_le_compat_r; [exact H |].
  unfold Qle. simpl. lia.
Qed.

Lemma pyround_zero (n : nat) : pyround 0 n == 0.
Proof. unfold Qeq. reflexivity. Qed.

Lemma pyround_nonneg (x : Q) (n : nat) : 0 <= x -> 0 <= pyround x n.
Proof.
  intros H. rewrite <- (pyround_zero n). apply pyround_mono, H.
Qed.

(** ** Validation *)

Lemma validate_inv (side order_type : string) (order_quantity : Q)
    (order_book : option OrderBook) (order_price : option Q) :
  _validate_inputs side order_type order_quantity order_book order_price = true ->
  (lower side = "buy" \/ lower side = "sell") /\
  (lower order_type = "market" \/ lower order_type = "limit") /\
  0 < order_quantity /\
  exists book bids asks,
    order_book = Some book /\
    book !! "bids" = Some bids /\ book !! "asks" = Some asks /\
    bids <> [] /\ asks <> [] /\
    (lower order_type = "limit" -> exists p, order_price = Some p /\ 0 < p).
Proof.
  unfold _validate_inputs.
  destruct (in_pair (lower side) "buy" "sell") eqn:Hs; [| discriminate].
  destruct (in_pair (lower order_type) "market" "limit") eqn:Ht; [| discriminate].
  destruct (Qle_bool order_quantity 0) eqn:Hq; [discriminate |].
  destruct order_book as [book |]; [| discriminate].
  destruct (bool_decide (book = ∅)); [discriminate |].
  destruct (book !! "bids") as [bids |] eqn:Hb; [| discriminate].
  destruct (book !! "asks") as [asks |] eqn:Ha; [| discriminate].
  destruct bids as [| b bids]; [discriminate |].
  destruct asks as [| a asks]; [discriminate |].
  simpl. intros Hp.
  apply in_pair_true in Hs. apply in_pair_true in Ht. apply Qle_bool_false in Hq.
  repeat split; try assumption.
  exists book, (b :: bids), (a :: asks).
  repeat split; try assumption; try discriminate.
  intros Hl. rewrite Hl in Hp. simpl in Hp.
  destruct order_price as [p |]; [| discriminate].
  destruct (Qle_bool p 0) eqn:Hp0; [discriminate |].
  exists p. split; [reflexivity | now apply Qle_bool_false].
Qed.

Lemma validate_rejects (side order_type : string) (order_quantity : Q)
    (order_book : option OrderBook) (order_price : option Q) :
  violates_validation side order_type order_quantity order_book order_price ->
  _validate_inputs side order_type order_quantity order_book order_price = false.
Proof.
  intros V.
  destruct (_validate_inputs _ _ _ _ _) eqn:E; [exfalso | reflexivity].
  apply validate_inv in E.
  destruct E as (Hs & Ht & Hq & book & bids & asks & Hbook & Hb & Ha & Hbn & Han & Hp).
  destruct V as [[V1 V2] | [[V1 V2] | [V | [V | [V | V]]]]].
  - tauto.
  - tauto.
  - lra.
  - congruence.
  - destruct V as (book' & E' & V). assert (book' = book) by congruence. subst book'.
    destruct V as [V | [V | [V | V]]]; congruence.
  - destruct V as [Hl V]. destruct (Hp Hl) as (p & Ep & Hpos).
    destruct V as [V | (p' & Ep' & V)]; [congruence |].
    assert (p' = p) by congruence. subst p'. lra.
Qed.

Lemma error_result_is_fail (message : string) :
  is_fail_result (_create_error_result message) message.
Proof. unfold is_fail_result, _create_error_result. simpl. repeat split; reflexivity. Qed.

Section Properties.

Variable pow : Q -> Q -> Q.
Variable rng : Type.
Variable uniform : rng -> Q -> Q -> Q * rng.

Abbreviation simulate := (simulate_order_execution pow rng uniform).

(** C3: an input that violates validation gets the zeroed [fail] result
    with the warning ["Invalid input parameters"]; the call returns
    (it does not raise) and leaves the engine and the random state alone. *)
Theorem invalid_input_fails
    (side order_type : string) (order_quantity : Q)
    (order_book : option OrderBook) (order_price : option Q) (latency : Z)
    (user_fee_profile : option (gmap string Q)) (w : World rng) :
  violates_validation side order_type order_quantity order_book order_price ->
  exists r,
    simulate side order_type order_quantity order_book order_price latency
      user_fee_profile w = (Ok r, w) /\
    is_fail_result r "Invalid input parameters".
Proof.
  intros V. apply validate_rejects in V.
  exists (_create_error_result "Invalid input parameters").
  split; [| apply error_result_is_fail].
  unfold simulate_order_execution. rewrite V. reflexivity.
Qed.

(** C7: two calls in a row with the same arguments and latency 0 return
    the same thing, and neither changes the engine or the random state. *)
Theorem simulate_twice_same
    (side order_type : string) (order_quantity : Q)
    (order_book : option OrderBook) (order_price : option Q)
    (user_fee_profile : option (gmap string Q)) (w : World rng) :
  let first := simulate side order_type order_quantity order_book order_price 0
                 user_fee_profile w in
  let second := simulate side order_type order_quantity order_book order_price 0
                  user_fee_profile (snd first) in
  fst first = fst second /\ snd first = w /\ snd second = w.
Proof.
  assert (Hw : snd (simulate side order_type order_quantity order_book order_price 0
                      user_fee_profile w) = w).
  { unfold simulate_order_execution.
    destruct (negb _); [reflexivity |].
    destruct order_book; reflexivity. }
  cbv zeta. rewrite Hw. auto.
Qed.


(** ** The shape of a call *)

Lemma simulate_inv
    (side order_type : string) (order_quantity : Q)
    (order_book : option OrderBook) (order_price : option Q) (latency : Z)
    (user_fee_profile : option (gmap string Q)) (w w' : World rng)
    (r : ExecutionResult) :
  simulate side order_type order_quantity order_book order_price latency
    user_fee_profile w = (Ok r, w') ->
  (_validate_inputs side order_type order_quantity order_book order_price = false /\
   r = _create_error_result "Invalid input parameters" /\ w' = w) \/
  (_validate_inputs side order_type order_quantity order_book order_price = true /\
   exists book book',
     order_book = Some book /\
     latency_step rng uniform book latency w = (Ok book', w') /\
     simulate_on_book pow (engine w') side order_type order_quantity book'
       order_price (default default_fee_profile user_fee_profile) = Ok r).
Proof.
  unfold simulate_order_execution.
  destruct (_validate_inputs _ _ _ _ _) eqn:V; simpl.
  - intros H. right. split; [reflexivity |].
    destruct order_book as [book |]; [| discriminate].
    destruct (latency_step rng uniform book latency w) as [stale w1] eqn:L.
    destruct stale as [book' | e]; simpl in H; [| discriminate].
    exists book, book'. inversion H; subst. auto.
  - intros H. left. inversion H; subst. auto.
Qed.

Lemma simulate_on_book_inv
    (self : ExecutionEngine) (side order_type : string) (order_quantity : Q)
    (order_book : OrderBook) (order_price : option Q)
    (user_fee_profile : gmap string Q) (r : ExecutionResult) :
  simulate_on_book pow self side order_type order_quantity order_book order_price
    user_fee_profile = Ok r ->
  exists f,
    fill_phase side order_type order_quantity order_book order_price = Ok f /\
    ((fill_quote f <= 0 /\ r = _create_error_result no_execution_message) \/
     (0 < fill_quote f /\
      exists impact_pct fee_rate,
        let partial := is_partial (fill_quote f) order_quantity in
        let type := if partial then "partial" else fill_type f in
        let avg := if Qlt_bool 0 (fill_base f)
                   then fill_quote f / fill_base f else 0 in
        calculate_impact pow (impact_model self) side (fill_quote f) order_book
          "default" = Ok impact_pct /\
        getitem user_fee_profile
          (if String.eqb type "taker" then "taker" else "maker") = Ok fee_rate /\
        execution_type r = type /\
        executed_quantity_base r = pyround (fill_base f) 8 /\
        executed_quantity_quote r = pyround (fill_quote f) 2 /\
        average_price r = pyround avg 2 /\
        slippage_pct r =
          pyround (calculate_slippage (slippage_model self) side
                     (fill_mid_price f) avg (fill_quote f)) 2 /\
        market_impact_pct r = pyround impact_pct 2 /\
        fee_paid r =
          pyround (calculate_fee (fee_model self) (fill_quote f) fee_rate type) 2)).
Proof.
  unfold simulate_on_book.
  destruct (fill_phase _ _ _ _ _) as [f | e]; simpl; [| discriminate].
  intros H. exists f. split; [reflexivity |].
  cbv zeta.
  destruct (is_partial (fill_quote f) order_quantity) eqn:P;
    (destruct (Qle_bool (fill_quote f) 0) eqn:E;
     [ left; apply Qle_bool_iff in E; inversion H; auto
     | right; apply Qle_bool_false in E; split; [exact E |] ]);
    destruct (calculate_impact _ _ _ _ _ _) as [impact_pct | e]; simpl in H;
      try discriminate.
  - destruct (getitem user_fee_profile "maker") as [fee_rate | e] eqn:G;
      simpl in H; [| discriminate].
    exists impact_pct, fee_rate. inversion H; subst; clear H.
    repeat split; try reflexivity; exact G.
  - destruct (String.eqb (fill_type f) "taker") eqn:T.
    + destruct (getitem user_fee_profile "taker") as [fee_rate | e] eqn:G;
        simpl in H; [| discriminate].
      exists impact_pct, fee_rate. inversion H; subst; clear H.
      repeat split; try reflexivity; exact G.
    + destruct (getitem user_fee_profile "maker") as [fee_rate | e] eqn:G;
        simpl in H; [| discriminate].
      exists impact_pct, fee_rate. inversion H; subst; clear H.
      repeat split; try reflexivity; exact G.
Qed.

(** ** Fees *)

Lemma calculate_fee_nonneg (self : MakerTakerFeeModel) (order_amount fee_rate : Q)
    (execution_type : string) :
  0 <= calculate_fee self order_amount fee_rate execution_type.
Proof.
  unfold calculate_fee.
  destruct (Qle_bool order_amount 0) eqn:A; simpl; [lra |].
  destruct (Qlt_bool fee_rate 0) eqn:F; [lra |].
  apply Qle_bool_false in A. apply Qlt_bool_false in F.
  apply Qmult_le_0_compat; [lra |].
  apply Qle_shift_div_l; lra.
Qed.

Lemma calculate_fee_rejects (self : MakerTakerFeeModel) (order_amount fee_rate : Q)
    (execution_type : string) :
  order_amount <= 0 \/ fee_rate < 0 ->
  calculate_fee self order_amount fee_rate execution_type = 0.
Proof.
  intros H. unfold calculate_fee.
  destruct H as [H | H].
  - apply Qle_bool_iff in H. rewrite H. reflexivity.
  - apply Qlt_bool_iff in H. rewrite H, orb_true_r. reflexivity.
Qed.

(** C10: whatever the fee profile, also one with a negative (rebate) rate,
    a returned result has [fee_paid >= 0]: [calculate_fee] gives 0 for a
    negative rate or a non-positive amount. *)
Theorem fee_paid_nonneg
    (side order_type : string) (order_quantity : Q)
    (order_book : option OrderBook) (order_price : option Q) (latency : Z)
    (user_fee_profile : option (gmap string Q)) (w w' : World rng)
    (r : ExecutionResult) :
  simulate side order_type order_quantity order_book order_price latency
    user_fee_profile w = (Ok r, w') ->
  0 <= fee_paid r /\
  forall (order_amount fee_rate : Q) (type : string),
    order_amount <= 0 \/ fee_rate < 0 ->
    calculate_fee (fee_model (engine w)) order_amount fee_rate type = 0.
Proof.
  intros H. split; [| intros; apply calculate_fee_rejects; assumption].
  apply simulate_inv in H.
  destruct H as [(_ & -> & _) | (_ & book & book' & _ & _ & H)]; [simpl; lra |].
  apply simulate_on_book_inv in H.
  destruct H as (f & _ & [(_ & ->) | (_ & i & fr & H)]); [simpl; lra |].
  cbv zeta in H. destruct H as (_ & _ & _ & _ & _ & _ & _ & _ & ->).
  apply pyround_nonneg, calculate_fee_nonneg.
Qed.

(** ** The ADV table *)

(** C9: [update_adv] with a value [<= 0] changes nothing, so the impact
    computed afterwards is the impact computed before; with a positive
    value the entry of the symbol becomes that value and no other entry
    changes. *)
Theorem update_adv_guarded (self : MarketImpactModel) (symbol : string) (value : Q) :
  (value <= 0 ->
     adv (update_adv self symbol value) = adv self /\
     adv_for (update_adv self symbol value) symbol = adv_for self symbol /\
     forall side order_size order_book,
       calculate_impact pow (update_adv self symbol value) side order_size
         order_book symbol =
       calculate_impact pow self side order_size order_book symbol) /\
  (0 < value ->
     adv (update_adv self symbol value) !! symbol = Some value /\
     forall other, other <> symbol ->
       adv (update_adv self symbol value) !! other = adv self !! other).
Proof.
  unfold update_adv. split; intros Hv.
  - apply Qle_bool_iff in Hv. rewrite Hv. auto.
  - apply Qle_bool_false in Hv. rewrite Hv. simpl. split.
    + apply lookup_insert_eq.
    + intros other Hne. apply lookup_insert_ne. congruence.
Qed.


(** ** Partial fills and the fee rate *)

Lemma partial_result_fee
    (self : ExecutionEngine) (side order_type : string) (order_quantity : Q)
    (order_book : OrderBook) (order_price : option Q)
    (user_fee_profile : gmap string Q) (r : ExecutionResult) :
  simulate_on_book pow self side order_type order_quantity order_book order_price
    user_fee_profile = Ok r ->
  execution_type r = "partial" ->
  exists f maker_rate,
    fill_phase side order_type order_quantity order_book order_price = Ok f /\
    user_fee_profile !! "maker" = Some maker_rate /\
    fee_paid r =
      pyround (calculate_fee (fee_model self) (fill_quote f) maker_rate "partial") 2.
Proof.
  intros H T. apply simulate_on_book_inv in H.
  destruct H as (f & Hf & [(_ & ->) | (_ & i & fr & H)]); [discriminate |].
  cbv zeta in H. destruct H as (_ & G & Ht & _ & _ & _ & _ & _ & Hfee).
  rewrite T in Ht. rewrite <- Ht in G, Hfee. simpl in G.
  exists f, fr. repeat split; try assumption.
  unfold getitem in G. destruct (user_fee_profile !! "maker"); congruence.
Qed.

(** ** The latency step *)

Lemma perturb_levels_first (direction modification_factor : Q)
    (levels : list Level) (g : rng) :
  levels <> [] ->
  let levels' := fst (perturb_levels rng uniform direction modification_factor levels g) in
  levels' <> [] /\
  first_price levels' ==
    first_price levels +
    first_price levels * modification_factor * fst (uniform g 0 0.5) * direction.
Proof.
  destruct levels as [| [price quantity] rest]; [congruence |]. intros _. simpl.
  destruct (uniform g 0 0.5) as [u1 g1].
  destruct (uniform g1 (-0.5) 0.5) as [u2 g2].
  destruct (perturb_levels rng uniform direction modification_factor rest g2).
  simpl. split; [discriminate | reflexivity].
Qed.

Lemma modification_factor_range (latency : Z) :
  (0 < latency)%Z ->
  0 < Qmin (inject_Z latency / 1000) 0.1 <= 0.1.
Proof.
  intros L.
  assert (0 < inject_Z latency) by (unfold Qlt; simpl; lia).
  assert (0 < inject_Z latency / 1000) by (apply Qlt_shift_div_l; lra).
  destruct (Q.min_spec (inject_Z latency / 1000) 0.1) as [[? E] | [? E]];
    rewrite E; split; lra.
Qed.

(** ** Limit orders that do not cross *)

Lemma simulate_on_book_resting
    (self : ExecutionEngine) (side order_type : string) (order_quantity : Q)
    (order_book : OrderBook) (order_price : Q)
    (user_fee_profile : gmap string Q) (bids asks : list Level) :
  lower order_type = "limit" ->
  order_book !! "bids" = Some bids -> order_book !! "asks" = Some asks ->
  (lower side = "buy" /\ order_price < first_price asks) \/
  (lower side = "sell" /\ first_price bids < order_price) ->
  simulate_on_book pow self side order_type order_quantity order_book
    (Some order_price) user_fee_profile =
  Ok (_create_error_result no_execution_message).
Proof.
  intros Ht Hb Ha Hside.
  unfold simulate_on_book, fill_phase, best_price, getitem, is_marketable.
  rewrite Hb, Ha, Ht. simpl.
  destruct Hside as [[Hs Hp] | [Hs Hp]]; rewrite Hs; simpl;
    apply Qle_bool_false in Hp; rewrite Hp; reflexivity.
Qed.


Lemma perturbed_ask_not_lower (mf : Q) (asks : list Level) (g : rng) :
  uniform_in_range rng uniform -> 0 <= mf -> 0 <= first_price asks -> asks <> [] ->
  first_price asks <= first_price (fst (perturb_levels rng uniform 1 mf asks g)).
Proof.
  intros U Hmf Hp Hne.
  destruct (perturb_levels_first 1 mf asks g Hne) as [_ E]. rewrite E.
  destruct (U g 0 0.5) as [Hu _]; [lra |].
  assert (0 <= first_price asks * mf * fst (uniform g 0 0.5)).
  { apply Qmult_le_0_compat; [apply Qmult_le_0_compat |]; assumption. }
  lra.
Qed.

Lemma perturbed_bid_not_higher (mf : Q) (bids : list Level) (g : rng) (bound : Q) :
  uniform_in_range rng uniform -> 0 <= mf <= 0.1 -> 0 < bound -> bids <> [] ->
  first_price bids < bound ->
  first_price (fst (perturb_levels rng uniform (-1) mf bids g)) < bound.
Proof.
  intros U Hmf Hb Hne Hp.
  destruct (perturb_levels_first (-1) mf bids g Hne) as [_ E]. rewrite E.
  destruct (U g 0 0.5) as [Hu0 Hu1]; [lra |].
  set (u := fst (uniform g 0 0.5)) in *. set (p := first_price bids) in *.
  assert (Hk : 0 <= mf * u <= 1).
  { split; [apply Qmult_le_0_compat; lra |].
    assert (mf * u <= 0.1 * 0.5); [| lra].
    apply Qmult_le_compat_nonneg; split; lra. }
  assert (E' : p + p * mf * u * -1 == p * (1 - mf * u)) by ring.
  rewrite E'.
  set (k := mf * u) in *.
  destruct (Qlt_le_dec p 0) as [Hneg | Hpos].
  - assert (p * (1 - k) <= 0) by nra. lra.
  - assert (p * (1 - k) <= p) by nra. lra.
Qed.

(** C2, as the code has it: a valid limit order that does not cross the
    book returns the zeroed [fail] result with the one warning
    ["No execution: insufficient liquidity or non-marketable limit order"],
    at every latency; the [maker] type and the resting warning set on the
    way are dropped. *)
Theorem non_marketable_limit_fails
    (side order_type : string) (order_quantity : Q) (order_book : OrderBook)
    (order_price : Q) (latency : Z)
    (user_fee_profile : option (gmap string Q)) (w : World rng) :
  uniform_in_range rng uniform ->
  _validate_inputs side order_type order_quantity (Some order_book)
    (Some order_price) = true ->
  non_marketable_limit side order_type order_book order_price ->
  exists r w',
    simulate side order_type order_quantity (Some order_book) (Some order_price)
      latency user_fee_profile w = (Ok r, w') /\
    is_fail_result r no_execution_message /\
    execution_type r <> "maker".
Proof.
  intros U V (Ht & bids & asks & Hb & Ha & Hbn & Han & Hside).
  pose proof (validate_inv _ _ _ _ _ V) as (_ & _ & _ & _ & _ & _ & _ & _ & _ & _ & _ & Hp).
  destruct (Hp Ht) as (p & Ep & Hpos). inversion Ep; subst p; clear Ep Hp.
  exists (_create_error_result no_execution_message).
  unfold simulate_order_execution. rewrite V. simpl.
  destruct (latency_step rng uniform order_book latency w) as [stale w1] eqn:L.
  assert (Hstale : exists book' bids' asks',
             stale = Ok book' /\
             book' !! "bids" = Some bids' /\ book' !! "asks" = Some asks' /\
             ((lower side = "buy" /\ order_price < first_price asks') \/
              (lower side = "sell" /\ first_price bids' < order_price))).
  { unfold latency_step in L. destruct (0 <? latency)%Z eqn:Lz.
    - apply Z.ltb_lt in Lz.
      pose proof (modification_factor_range latency Lz) as Hmf.
      unfold _apply_latency_simulation in L. rewrite Hb in L.
      destruct (perturb_levels rng uniform (-1) _ bids (rng_state w))
        as [bids' g1] eqn:Pb.
      rewrite lookup_insert_ne in L by discriminate. rewrite Ha in L.
      destruct (perturb_levels rng uniform 1 _ asks g1) as [asks' g2] eqn:Pa.
      inversion L; subst; clear L.
      eexists _, bids', asks'. split; [reflexivity |]. split; [| split].
      + rewrite lookup_insert_ne by discriminate. apply lookup_insert_eq.
      + apply lookup_insert_eq.
      + destruct Hside as [[Hs Hlt] | [Hs Hlt]]; [left | right]; (split; [exact Hs |]).
        * pose proof (perturbed_ask_not_lower
                        (Qmin (inject_Z latency / 1000) 0.1) asks g1 U) as M.
          rewrite Pa in M. simpl in M.
          assert (first_price asks <= first_price asks'); [apply M; try lra; assumption | lra].
        * pose proof (perturbed_bid_not_higher
                        (Qmin (inject_Z latency / 1000) 0.1) bids (rng_state w)
                        order_price U) as M.
          rewrite Pb in M. simpl in M. apply M; try assumption. lra.
    - inversion L; subst. exists order_book, bids, asks. auto. }
  destruct Hstale as (book' & bids' & asks' & -> & Hb' & Ha' & Hside').
  exists w1. simpl.
  rewrite (simulate_on_book_resting _ side order_type order_quantity book'
             order_price _ bids' asks' Ht Hb' Ha' Hside').
  split; [reflexivity |]. split; [apply error_result_is_fail | discriminate].
Qed.


(** ** One level *)

Lemma Qmin_l_eq (a b : Q) : a <= b -> Qmin a b = a.
Proof.
  intros H. unfold Qmin, GenericMinMax.gmin.
  destruct (Qcompare_spec a b); try reflexivity. lra.
Qed.

Lemma Qmin_r_eq (a b : Q) : b < a -> Qmin a b = b.
Proof.
  intros H. unfold Qmin, GenericMinMax.gmin.
  destruct (Qcompare_spec a b); try reflexivity; lra.
Qed.

Lemma pydiv_nonzero (a b : Q) : ~ b == 0 -> pydiv a b = Ok (a / b).
Proof.
  intros H. unfold pydiv.
  destruct (Qeq_bool b 0) eqn:E; [| reflexivity].
  apply Qeq_bool_iff in E. contradiction.
Qed.

Lemma pydiv_pos (a b : Q) : 0 < b -> pydiv a b = Ok (a / b).
Proof. intros H. apply pydiv_nonzero. lra. Qed.

Lemma full_fill_spec (side : string) (price quantity : Q) :
  0 < price ->
  snd (full_fill side price quantity) == price * quantity /\
  snd (full_fill side price quantity) == price * fst (full_fill side price quantity).
Proof.
  intros Hp. unfold full_fill.
  destruct (String.eqb (lower side) "buy"); simpl; split; try ring.
  field. lra.
Qed.

Lemma fill_level_full (side : string) (price quantity remaining : Q) :
  0 < price -> price * quantity < remaining ->
  fill_level side price quantity remaining = Ok (full_fill side price quantity).
Proof.
  intros Hp Hr. unfold fill_level, full_fill.
  destruct (String.eqb (lower side) "buy").
  - rewrite (Qmin_r_eq _ _ Hr). rewrite pydiv_pos by exact Hp. reflexivity.
  - rewrite pydiv_pos by exact Hp. simpl.
    rewrite Qmin_r_eq; [reflexivity |].
    apply Qlt_shift_div_l; [exact Hp | lra].
Qed.

Lemma fill_level_rest (side : string) (price quantity remaining : Q) :
  0 < price -> remaining <= price * quantity ->
  exists executable_base executable_quote,
    fill_level side price quantity remaining = Ok (executable_base, executable_quote) /\
    executable_quote == remaining /\
    executable_quote == price * executable_base.
Proof.
  intros Hp Hr. unfold fill_level.
  destruct (String.eqb (lower side) "buy").
  - rewrite (Qmin_l_eq _ _ Hr). rewrite pydiv_pos by exact Hp.
    eexists _, _. split; [reflexivity |]. split; [reflexivity |]. field. lra.
  - rewrite pydiv_pos by exact Hp. simpl.
    rewrite Qmin_l_eq by (apply Qle_shift_div_r; [exact Hp | lra]).
    eexists _, _. split; [reflexivity |]. split; field; lra.
Qed.

(** Either way the level gives [min(remaining, price * quantity)] of quote
    at its own price. *)
Lemma fill_level_spec (side : string) (price quantity remaining : Q) :
  0 < price ->
  exists executable_base executable_quote,
    fill_level side price quantity remaining = Ok (executable_base, executable_quote) /\
    executable_quote == price * executable_base /\
    ((remaining <= price * quantity /\ executable_quote == remaining) \/
     (price * quantity < remaining /\ executable_quote == price * quantity /\
      (executable_base, executable_quote) = full_fill side price quantity)).
Proof.
  intros Hp. destruct (Qlt_le_dec (price * quantity) remaining) as [Hr | Hr].
  - exists (fst (full_fill side price quantity)), (snd (full_fill side price quantity)).
    rewrite <- surjective_pairing.
    destruct (full_fill_spec side price quantity Hp) as [E1 E2].
    split; [apply fill_level_full; assumption |]. split; [exact E2 |]. right. auto.
  - destruct (fill_level_rest side price quantity remaining Hp Hr) as (xb & xq & E & E1 & E2).
    exists xb, xq. split; [exact E |]. split; [exact E2 |]. left. auto.
Qed.


(** ** The walk of the engine, one run *)

Lemma walk_book_step (side order_type : string) (order_price : option Q)
    (p c : Q) (rest : list Level) (b e r : Q) (res : Q * Q * Q) :
  0 < p ->
  walk_book side order_type order_price ((p, c) :: rest) b e r = Ok res ->
  (within_limit side order_type order_price p = false /\ res = (b, e, r)) \/
  (within_limit side order_type order_price p = true /\
   exists xb xq,
     fill_level side p c r = Ok (xb, xq) /\
     xq == p * xb /\
     ((r <= p * c /\ xq == r) \/
      (p * c < r /\ xq == p * c /\ (xb, xq) = full_fill side p c)) /\
     ((r - xq <= 0.01 /\ res = (b + xb, e + xq, r - xq)) \/
      (0.01 < r - xq /\
       walk_book side order_type order_price rest (b + xb) (e + xq) (r - xq) = Ok res))).
Proof.
  intros Hp. simpl. unfold within_limit.
  destruct (beyond_limit side order_type order_price p) as [[|] | ex]; simpl;
    [intros H; inversion H; auto | | discriminate].
  destruct (fill_level_spec side p c r Hp) as (xb & xq & E & E1 & E2).
  rewrite E. simpl. intros H. right. split; [reflexivity |].
  exists xb, xq. repeat split; try assumption.
  destruct (Qle_bool (r - xq) 0.01) eqn:S.
  - left. apply Qle_bool_iff in S. inversion H. auto.
  - right. apply Qle_bool_false in S. auto.
Qed.

Lemma base_nonneg (p xb xq : Q) : 0 < p -> xq == p * xb -> 0 <= xq -> 0 <= xb.
Proof.
  intros Hp E Hq. destruct (Qlt_le_dec xb 0) as [N |]; [| assumption].
  assert (p * xb < 0) by nra. lra.
Qed.

Lemma base_le (p xb1 xq1 xb2 xq2 : Q) :
  0 < p -> xq1 == p * xb1 -> xq2 == p * xb2 -> xq1 <= xq2 -> xb1 <= xb2.
Proof.
  intros Hp E1 E2 Hq. destruct (Qlt_le_dec xb2 xb1) as [N |]; [| assumption].
  assert (p * xb2 < p * xb1) by nra. lra.
Qed.

(** From a state with [remaining >= 0]: totals only grow, what is filled
    comes off the remainder, and the fill is priced on the [sgn] side of
    every bound the prices respect. *)
Lemma walk_book_run (sgn : Q) (side order_type : string) (order_price : option Q)
    (levels : list Level) :
  forall (bound b e r b' e' r' : Q),
    levels_ok levels -> sorted_from sgn bound levels -> 0 <= r ->
    walk_book side order_type order_price levels b e r = Ok (b', e', r') ->
    b <= b' /\ e <= e' /\ 0 <= r' /\ e' + r' == e + r /\
    sgn * bound * (b' - b) <= sgn * (e' - e).
Proof.
  induction levels as [| [p c] rest IH]; intros bound b e r b' e' r' Hok Hs Hr H.
  - simpl in H. inversion H; subst. repeat split; first [lra | nra].
  - inversion Hok as [| l ls [Hp Hc] Hok' ]; subst. simpl in Hp, Hc.
    destruct Hs as [Hb Hs].
    apply walk_book_step in H; [| exact Hp].
    destruct H as [[_ H] | (_ & xb & xq & _ & E & Hx & H)].
    + inversion H; subst. repeat split; first [lra | nra].
    + assert (Hpc : 0 <= p * c) by (apply Qmult_le_0_compat; lra).
      assert (Hxq : 0 <= xq <= r) by (destruct Hx as [[? ?] | [? [? _]]]; lra).
      pose proof (base_nonneg p xb xq Hp E (proj1 Hxq)) as Hxb.
      assert (A1 : 0 <= (sgn * p - sgn * bound) * xb)
        by (apply Qmult_le_0_compat; lra).
      destruct H as [[_ H] | [Hgt H]].
      * inversion H; subst. repeat split; first [lra | nra].
      * apply (IH p) in H; [| assumption | assumption | lra].
        destruct H as (H1 & H2 & H3 & H4 & H5).
        assert (A2 : 0 <= (sgn * p - sgn * bound) * (b' - (b + xb)))
          by (apply Qmult_le_0_compat; lra).
        repeat split; first [lra | nra].
Qed.


(** ** The walk of the engine, two runs over the same levels

    The larger order fills at least as much, and what it fills beyond the
    smaller one is priced no better than a marginal price [m], while the
    smaller fill is priced no worse than [m]. *)
Lemma walk_book_two_runs (sgn : Q) (side order_type : string)
    (order_price : option Q) (levels : list Level) :
  forall (bound b e r1 r2 b1 e1 r1' b2 e2 r2' : Q),
    levels_ok levels -> sorted_from sgn bound levels -> 0 <= r1 <= r2 ->
    walk_book side order_type order_price levels b e r1 = Ok (b1, e1, r1') ->
    walk_book side order_type order_price levels b e r2 = Ok (b2, e2, r2') ->
    b <= b1 <= b2 /\ e <= e1 <= e2 /\
    exists m,
      sgn * bound <= sgn * m /\
      sgn * (e1 - e) <= sgn * m * (b1 - b) /\
      sgn * m * (b2 - b1) <= sgn * (e2 - e1).
Proof.
  induction levels as [| [p c] rest IH];
    intros bound b e r1 r2 b1 e1 r1' b2 e2 r2' Hok Hs Hr H1 H2.
  - simpl in H1, H2. inversion H1; inversion H2; subst.
    repeat split; try lra. exists bound. repeat split; first [lra | nra].
  - inversion Hok as [| l ls [Hp Hc] Hok' ]; subst. simpl in Hp, Hc.
    destruct Hs as [Hb Hs].
    assert (Hpc : 0 <= p * c) by (apply Qmult_le_0_compat; lra).
    apply walk_book_step in H1; [| exact Hp].
    apply walk_book_step in H2; [| exact Hp].
    destruct H1 as [[W1 H1] | (W1 & xb1 & xq1 & F1 & E1 & Hx1 & H1)];
      destruct H2 as [[W2 H2] | (W2 & xb2 & xq2 & F2 & E2 & Hx2 & H2)];
      try congruence.
    + inversion H1; inversion H2; subst.
      repeat split; try lra. exists bound. repeat split; first [lra | nra].
    + assert (Hq1 : 0 <= xq1 <= r1) by (destruct Hx1 as [[? ?] | [? [? _]]]; lra).
      assert (Hq2 : 0 <= xq2 <= r2) by (destruct Hx2 as [[? ?] | [? [? _]]]; lra).
      assert (Hq12 : xq1 <= xq2)
        by (destruct Hx1 as [[? ?] | [? [? _]]]; destruct Hx2 as [[? ?] | [? [? _]]]; lra).
      pose proof (base_nonneg p xb1 xq1 Hp E1 (proj1 Hq1)) as Hxb1.
      pose proof (base_le p xb1 xq1 xb2 xq2 Hp E1 E2 Hq12) as Hxb12.
      destruct H1 as [[S1 H1] | [S1 H1]].
      * (* the smaller order ends on this level *)
        inversion H1; subst; clear H1.
        assert (M1 : sgn * (e + xq1 - e) <= sgn * p * (b + xb1 - b)) by nra.
        destruct H2 as [[S2 H2] | [S2 H2]].
        -- inversion H2; subst; clear H2.
           repeat split; try lra. exists p. repeat split; first [lra | nra].
        -- apply (walk_book_run sgn _ _ _ _ p) in H2; [| assumption | assumption | lra].
           destruct H2 as (G1 & G2 & _ & _ & G5).
           repeat split; try lra. exists p. repeat split; first [lra | nra].
      * (* the smaller order goes on, so both took the level in full *)
        assert (Hfull1 : p * c < r1) by (destruct Hx1 as [[? ?] | [? _]]; lra).
        assert (Hfull2 : p * c < r2) by lra.
        rewrite (fill_level_full side p c r1 Hp Hfull1) in F1.
        rewrite (fill_level_full side p c r2 Hp Hfull2) in F2.
        assert (Exb : xb2 = xb1) by congruence.
        assert (Exq : xq2 = xq1) by congruence.
        subst xb2 xq2.
        destruct H2 as [[S2 H2] | [S2 H2]]; [lra |].
        assert (Hr' : 0 <= r1 - xq1 <= r2 - xq1) by lra.
        destruct (IH p _ _ _ _ _ _ _ _ _ _ Hok' Hs Hr' H1 H2)
          as (Gb & Ge & m & Gm1 & Gm2 & Gm3).
        repeat split; try lra. exists m.
        assert (A : 0 <= (sgn * m - sgn * p) * xb1)
          by (apply Qmult_le_0_compat; lra).
        repeat split; first [lra | nra].
Qed.


Lemma sorted_from_zero (levels : list Level) :
  forall bound, sorted_from 0 bound levels.
Proof.
  induction levels as [| [p c] rest IH]; intros bound; simpl; [exact I |].
  split; [lra | apply IH].
Qed.

(** The test of the loop against the limit price, in the claim's words. *)
Lemma beyond_limit_spec (side order_type : string) (order_price : option Q)
    (price : Q) (stop : bool) :
  beyond_limit side order_type order_price price = Ok stop ->
  price_allowed side order_type order_price price = negb stop.
Proof.
  unfold beyond_limit, price_allowed, gt_opt, lt_opt, Qlt_bool.
  destruct (String.eqb (lower order_type) "limit"); [| intros H; inversion H; reflexivity].
  destruct (String.eqb (lower side) "buy") eqn:B.
  - apply String.eqb_eq in B. rewrite B. simpl.
    destruct order_price as [limit |]; simpl; [| discriminate].
    destruct (Qle_bool price limit); simpl; intros H; inversion H; reflexivity.
  - simpl. destruct (String.eqb (lower side) "sell"); [| intros H; inversion H; reflexivity].
    destruct order_price as [limit |]; simpl; [| discriminate].
    destruct (Qle_bool limit price); simpl; intros H; inversion H; reflexivity.
Qed.

Lemma walk_book_step_allowed (side order_type : string) (order_price : option Q)
    (p c : Q) (rest : list Level) (b e r : Q) (res : Q * Q * Q) :
  walk_book side order_type order_price ((p, c) :: rest) b e r = Ok res ->
  price_allowed side order_type order_price p =
  within_limit side order_type order_price p.
Proof.
  simpl. unfold within_limit.
  destruct (beyond_limit side order_type order_price p) as [stop | ex] eqn:B;
    [| discriminate].
  intros _. rewrite (beyond_limit_spec _ _ _ _ _ B). destruct stop; reflexivity.
Qed.

(** The fill is positive for an order above the 0.01 threshold as soon as
    a level within the limit is worth a positive amount. *)
Lemma walk_book_positive (side order_type : string) (order_price : option Q)
    (levels : list Level) :
  forall (b e r b' e' r' : Q),
    levels_ok levels -> 0.01 < r ->
    Exists (fun l : Level => 0 < fst l * snd l)
      (levels_within_limit side order_type order_price levels) ->
    walk_book side order_type order_price levels b e r = Ok (b', e', r') ->
    e < e'.
Proof.
  induction levels as [| [p c] rest IH]; intros b e r b' e' r' Hok Hr Hex H.
  - simpl in Hex. inversion Hex.
  - inversion Hok as [| l ls [Hp Hc] Hok' ]; subst. simpl in Hp, Hc.
    simpl in Hex. rewrite (walk_book_step_allowed _ _ _ _ _ _ _ _ _ _ H) in Hex.
    apply walk_book_step in H; [| exact Hp].
    destruct H as [[W _] | (W & xb & xq & _ & E & Hx & H)].
    + rewrite W in Hex. inversion Hex.
    + rewrite W in Hex.
      destruct (Qlt_le_dec 0 (p * c)) as [Hcpos | Hczero].
      * assert (0 < xq <= r) by (destruct Hx as [[? ?] | [? [? _]]]; lra).
        destruct H as [[_ H] | [S H]].
        -- inversion H; subst. lra.
        -- apply (walk_book_run 0 _ _ _ _ 0) in H;
             [lra | assumption | apply sorted_from_zero | lra].
      * assert (Hc0 : p * c == 0) by nra.
        assert (Hxq : xq == 0) by (destruct Hx as [[? ?] | [? [? _]]]; lra).
        destruct H as [[S _] | [S H]]; [lra |].
        inversion Hex as [? ? Hhd | ? ? Htl]; subst; [simpl in Hhd; lra |].
        apply (IH _ _ _ _ _ _ Hok') in H; [lra | lra | exact Htl].
Qed.

(** The walk ends with at most 0.01 left, or it has gone through every
    level within the limit. *)
Lemma walk_book_stops (side order_type : string) (order_price : option Q)
    (levels : list Level) :
  forall (b e r b' e' r' : Q),
    levels_ok levels ->
    walk_book side order_type order_price levels b e r = Ok (b', e', r') ->
    r' <= 0.01 \/
    fill_all side (levels_within_limit side order_type order_price levels) b e r
      = Ok (b', e', r').
Proof.
  induction levels as [| [p c] rest IH]; intros b e r b' e' r' Hok H.
  - simpl in H. right. exact H.
  - inversion Hok as [| l ls [Hp Hc] Hok' ]; subst. simpl in Hp, Hc. simpl.
    rewrite (walk_book_step_allowed _ _ _ _ _ _ _ _ _ _ H).
    apply walk_book_step in H; [| exact Hp].
    destruct H as [[W H] | (W & xb & xq & F & _ & _ & H)]; rewrite W.
    + right. simpl. rewrite H. reflexivity.
    + destruct H as [[S H] | [S H]].
      * inversion H; subst. left. exact S.
      * apply (IH _ _ _ _ _ _ Hok') in H. destruct H as [H | H]; [left; exact H |].
        right. simpl. rewrite F. simpl. exact H.
Qed.

(** An order that crosses the book passes the marketability test. *)
Lemma crosses_is_marketable (side order_type : string) (order_price : option Q)
    (bids asks : list Level) :
  crosses side order_type order_price bids asks ->
  is_marketable side order_type order_price (first_price bids) (first_price asks)
  = Ok true.
Proof.
  unfold crosses, is_marketable, ge_opt, le_opt.
  destruct (String.eqb (lower order_type) "limit") eqn:T; [| reflexivity].
  apply String.eqb_eq in T.
  intros [N | (limit & -> & [[B A] | [S A]])]; [contradiction | |].
  - rewrite B. simpl.
    replace (Qle_bool (first_price asks) limit) with true
      by (symmetry; apply Qle_bool_iff; exact A).
    reflexivity.
  - rewrite S. simpl.
    replace (Qle_bool limit (first_price bids)) with true
      by (symmetry; apply Qle_bool_iff; exact A).
    reflexivity.
Qed.

(** ** The fill phase *)

Lemma fill_phase_inv (side order_type : string) (order_quantity : Q)
    (order_book : OrderBook) (order_price : option Q) (f : Fill) :
  fill_phase side order_type order_quantity order_book order_price = Ok f ->
  exists best_bid best_ask marketable,
    best_price order_book "bids" = Ok best_bid /\
    best_price order_book "asks" = Ok best_ask /\
    is_marketable side order_type order_price best_bid best_ask = Ok marketable /\
    fill_mid_price f = (best_bid + best_ask) / 2 /\
    ((marketable = true /\ fill_type f = "taker" /\
      exists levels r',
        order_book !! contra_side side = Some levels /\
        walk_book side order_type order_price levels 0 0 order_quantity =
          Ok (fill_base f, fill_quote f, r')) \/
     (marketable = false /\ fill_base f = 0 /\ fill_quote f = 0 /\
      (fill_type f = "maker" \/ fill_type f = "fail"))).
Proof.
  unfold fill_phase, contra_side.
  destruct (best_price order_book "bids") as [bb | ex]; simpl; [| discriminate].
  destruct (best_price order_book "asks") as [ba | ex]; simpl; [| discriminate].
  destruct (is_marketable side order_type order_price bb ba) as [[|] | ex] eqn:M;
    simpl; [| | discriminate].
  - unfold getitem.
    destruct (order_book !! (if String.eqb (lower side) "buy" then "asks" else "bids"))
      as [levels |]; simpl; [| discriminate].
    destruct (walk_book side order_type order_price levels 0 0 order_quantity)
      as [[[b' e'] r'] | ex] eqn:W; simpl; [| discriminate].
    intros H. inversion H; subst; clear H. simpl.
    exists bb, ba, true. repeat split; [exact M |]. left. repeat split.
    exists levels, r'. split; [reflexivity | exact W].
  - intros H. exists bb, ba, false. repeat split; [exact M | |].
    + destruct (String.eqb (lower order_type) "limit"); inversion H; reflexivity.
    + right. destruct (String.eqb (lower order_type) "limit"); inversion H; simpl; auto.
Qed.


Lemma pyround_eq (x y : Q) (n : nat) : x == y -> pyround x n == pyround y n.
Proof.
  intros E. apply Qle_antisym; apply pyround_mono; lra.
Qed.

Lemma latency_step_zero (book : OrderBook) (w : World rng) :
  latency_step rng uniform book 0 w = (Ok book, w).
Proof. reflexivity. Qed.


(** C5, as the code has it.  A returned result carries one type out of
    [taker], [maker], [partial], [fail] (and never [maker]); it is [partial]
    exactly when the input is valid and the quote amount [e] filled on the
    book in use is strictly between 0 and the requested amount.  The result
    reports [round(e, 2)], not [e]. *)
Theorem execution_type_partition
    (side order_type : string) (order_quantity : Q)
    (order_book : option OrderBook) (order_price : option Q) (latency : Z)
    (user_fee_profile : option (gmap string Q)) (w w' : World rng)
    (r : ExecutionResult) :
  simulate side order_type order_quantity order_book order_price latency
    user_fee_profile w = (Ok r, w') ->
  In (execution_type r) ["taker"; "maker"; "partial"; "fail"] /\
  execution_type r <> "maker" /\
  (execution_type r = "partial" <->
   exists book book' f,
     order_book = Some book /\
     _validate_inputs side order_type order_quantity order_book order_price = true /\
     latency_step rng uniform book latency w = (Ok book', w') /\
     fill_phase side order_type order_quantity book' order_price = Ok f /\
     0 < fill_quote f < order_quantity /\
     executed_quantity_quote r = pyround (fill_quote f) 2).
Proof.
  intros H. apply simulate_inv in H.
  destruct H as [(V & -> & _) | (V & book & book' & Eb & L & H)].
  - simpl. split; [tauto |]. split; [discriminate |].
    split; [discriminate |]. intros (? & ? & ? & _ & V' & _). congruence.
  - apply simulate_on_book_inv in H. destruct H as (f & F & H).
    destruct (fill_phase_inv _ _ _ _ _ _ F) as (_ & _ & m & _ & _ & _ & _ & Hf).
    destruct H as [(Hz & ->) | (Hpos & i & fr & H)].
    + simpl. split; [tauto |]. split; [discriminate |].
      split; [discriminate |].
      intros (b0 & b1 & f' & Eb' & _ & L' & F' & Hrange & _).
      assert (b0 = book) by congruence. subst b0.
      assert (b1 = book') by congruence. subst b1.
      assert (f' = f) by congruence. subst f'. lra.
    + cbv zeta in H. destruct H as (_ & _ & Ht & _ & Hq & _).
      unfold is_partial in Ht.
      destruct (Qlt_bool 0 (fill_quote f)) eqn:P0;
        [| apply Qlt_bool_false in P0; lra].
      destruct (Qlt_bool (fill_quote f) order_quantity) eqn:P1; simpl in Ht.
      * apply Qlt_bool_iff in P1. rewrite Ht. simpl.
        split; [tauto |]. split; [discriminate |].
        split; [intros _ | reflexivity].
        exists book, book', f. repeat split; assumption.
      * apply Qlt_bool_false in P1.
        assert (Hty : fill_type f = "taker").
        { destruct Hf as [(_ & T & _) | (_ & _ & Z0 & _)]; [exact T |].
          rewrite Z0 in Hpos. lra. }
        rewrite Ht, Hty. simpl.
        split; [tauto |]. split; [discriminate |].
        split; [discriminate |].
        intros (b0 & b1 & f' & Eb' & _ & L' & F' & Hrange & _).
        assert (b0 = book) by congruence. subst b0.
        assert (b1 = book') by congruence. subst b1.
        assert (f' = f) by congruence. subst f'. lra.
Qed.


(** ** The book-walk strategy of the slippage model *)

Lemma fill_level_total (side : string) (price quantity remaining : Q) :
  ~ price == 0 -> exists res, fill_level side price quantity remaining = Ok res.
Proof.
  intros Hp. unfold fill_level.
  destruct (String.eqb (lower side) "buy"); rewrite pydiv_nonzero by exact Hp;
    simpl; eexists; reflexivity.
Qed.

Lemma slippage_walk_total (side : string) (levels : list Level) :
  forall remaining_size total_cost total_quantity_base,
    Forall (fun l : Level => ~ fst l == 0) levels ->
    exists res,
      slippage_walk side levels remaining_size total_cost total_quantity_base = Ok res.
Proof.
  induction levels as [| [p c] rest IH]; intros r tc tb Hnz; simpl.
  - eexists; reflexivity.
  - inversion Hnz as [| l ls Hp Hnz']; subst. simpl in Hp.
    destruct (Qle_bool r 0); [eexists; reflexivity |].
    destruct (fill_level_total side p c r Hp) as [[xb xq] E]. rewrite E. simpl.
    apply IH, Hnz'.
Qed.

Lemma last_price_nonzero (levels : list Level) :
  levels <> [] -> Forall (fun l : Level => ~ fst l == 0) levels ->
  ~ last_price levels == 0.
Proof.
  unfold last_price. induction levels as [| l rest IH]; [congruence |].
  intros _ Hnz. inversion Hnz as [| ? ? Hl Hrest]; subst.
  destruct rest as [| l' rest']; [exact Hl |].
  apply IH; [discriminate | exact Hrest].
Qed.

Lemma calculate_slippage_nonneg (self : SlippageModel) (side : string)
    (mid_price executed_price order_size : Q) :
  0 <= calculate_slippage self side mid_price executed_price order_size.
Proof.
  unfold calculate_slippage.
  destruct (Qle_bool mid_price 0 || Qle_bool executed_price 0)%bool; [lra |].
  apply Q.le_max_l.
Qed.

(** C6, as the code has it.  On a book with positive best bid and best ask
    and no zero price on the walked side, [estimate_slippage] in rule-based
    mode returns, and what it returns is the signed value floored at 0,
    [max(0, signed)], for the average price [avg] of the model's own walk
    (0 when that average is not positive): the book-walk strategy ends in
    [calculate_slippage] and is never negative either. *)
Theorem rule_based_slippage_floored
    (self : SlippageModel) (side : string) (order_size : Q)
    (order_book : OrderBook) (bids asks levels : list Level) :
  use_ml_model self = false ->
  order_book !! "bids" = Some bids -> order_book !! "asks" = Some asks ->
  0 < first_price bids -> 0 < first_price asks ->
  order_book !! contra_side side = Some levels ->
  Forall (fun l : Level => ~ fst l == 0) levels ->
  exists v avg,
    let mid := (first_price bids + first_price asks) / 2 in
    estimate_slippage pow self side order_size order_book = Ok v /\
    rule_based_prices side order_size order_book = Ok (Some (mid, avg)) /\
    v = calculate_slippage self side mid avg order_size /\
    0 <= v /\
    (0 < avg -> v == Qmax 0 (signed_slippage side mid avg)) /\
    (avg <= 0 -> v == 0).
Proof.
  intros Hml Hb Ha Hbb Hba Hl Hnz. cbv zeta.
  assert (Hmid : 0 < (first_price bids + first_price asks) / 2)
    by (apply Qlt_shift_div_l; lra).
  assert (P : exists avg,
             rule_based_prices side order_size order_book =
             Ok (Some ((first_price bids + first_price asks) / 2, avg))).
  { unfold rule_based_prices, best_price, getitem. rewrite Hb, Ha. simpl.
    replace (Qle_bool (first_price bids) 0) with false
      by (symmetry; apply Qle_bool_false; exact Hbb).
    replace (Qle_bool (first_price asks) 0) with false
      by (symmetry; apply Qle_bool_false; exact Hba).
    simpl. unfold contra_side in Hl. rewrite Hl. simpl.
    destruct (slippage_walk_total side levels order_size 0 0 Hnz) as [[[rem tc] tb] W].
    rewrite W. simpl.
    assert (T : exists tc' tb',
               (if Qlt_bool 0 rem
                then match levels with
                     | [] => Ok (tc, tb)
                     | _ :: _ =>
                         remaining_base ← pydiv rem (last_price levels);
                         Ok (tc + rem, tb + remaining_base)
                     end
                else Ok (tc, tb)) = Ok (tc', tb')).
    { destruct (Qlt_bool 0 rem); [| eexists _, _; reflexivity].
      destruct levels as [| l0 ls]; [eexists _, _; reflexivity |].
      rewrite pydiv_nonzero
        by (apply last_price_nonzero; [discriminate | exact Hnz]).
      simpl. eexists _, _; reflexivity. }
    destruct T as (tc' & tb' & ->). simpl.
    destruct (Qlt_bool 0 tb') eqn:B.
    - apply Qlt_bool_iff in B. rewrite pydiv_pos by exact B. simpl.
      eexists; reflexivity.
    - simpl. eexists; reflexivity. }
  destruct P as [avg P].
  exists (calculate_slippage self side ((first_price bids + first_price asks) / 2)
            avg order_size), avg.
  split; [| split; [exact P | split; [reflexivity | split; [| split]]]].
  - unfold estimate_slippage, _estimate_slippage_rule_based.
    rewrite Hml, P. reflexivity.
  - apply calculate_slippage_nonneg.
  - intros Havg. unfold calculate_slippage.
    replace (Qle_bool ((first_price bids + first_price asks) / 2) 0) with false
      by (symmetry; apply Qle_bool_false; exact Hmid).
    replace (Qle_bool avg 0) with false
      by (symmetry; apply Qle_bool_false; exact Havg).
    reflexivity.
  - intros Havg. unfold calculate_slippage.
    apply Qle_bool_iff in Havg. rewrite Havg, orb_true_r. reflexivity.
Qed.


(** ** Costs against the order quantity *)

Lemma validate_quantity_mono (side order_type : string) (q1 q2 : Q)
    (order_book : option OrderBook) (order_price : option Q) :
  _validate_inputs side order_type q1 order_book order_price = true ->
  0 < q2 ->
  _validate_inputs side order_type q2 order_book order_price = true.
Proof.
  unfold _validate_inputs. intros H Hq.
  destruct (negb (in_pair (lower side) "buy" "sell")); [discriminate |].
  destruct (negb (in_pair (lower order_type) "market" "limit")); [discriminate |].
  destruct (Qle_bool q1 0); [discriminate |].
  apply Qle_bool_false in Hq. rewrite Hq. exact H.
Qed.

Lemma liquidity_factor_range (self : MarketImpactModel) (side : string)
    (order_book : OrderBook) (lf : Q) :
  _calculate_liquidity_factor self side order_book = Ok lf ->
  0.5 <= lf <= 3.
Proof.
  unfold _calculate_liquidity_factor.
  destruct (best_price order_book "bids") as [bb | ex]; simpl; [| discriminate].
  destruct (best_price order_book "asks") as [ba | ex]; simpl; [| discriminate].
  destruct (Qle_bool bb 0 || Qle_bool ba 0)%bool.
  - intros H. inversion H; subst. split; lra.
  - destruct (pydiv (ba - bb) ((bb + ba) / 2)) as [sp | ex]; simpl; [| discriminate].
    destruct (getitem order_book "bids") as [bids | ex]; simpl; [| discriminate].
    destruct (getitem order_book "asks") as [asks | ex]; simpl; [| discriminate].
    match goal with
    | |- context [mbind _ ?m] => destruct m as [imb | ex]; simpl; [| discriminate]
    end.
    intros H. inversion H; subst; clear H.
    split.
    + apply Q.min_glb; [apply Q.le_max_l | lra].
    + apply Q.le_min_r.
Qed.

Lemma calculate_impact_inv (self : MarketImpactModel) (side : string)
    (order_size : Q) (order_book : OrderBook) (impact : Q) :
  calculate_impact pow self side order_size order_book "default" = Ok impact ->
  exists a lf,
    adv self !! "default" = Some a /\
    ~ a == 0 /\
    _calculate_liquidity_factor self side order_book = Ok lf /\
    impact = gamma self * pow (order_size / a) (delta self) * lf.
Proof.
  unfold calculate_impact, adv_for, getitem.
  destruct (adv self !! "default") as [a |] eqn:A; simpl; [| discriminate].
  unfold pydiv. destruct (Qeq_bool a 0) eqn:Z; simpl; [discriminate |].
  destruct (_calculate_liquidity_factor self side order_book) as [lf | ex]; simpl;
    [| discriminate].
  intros H. inversion H; subst. exists a, lf. repeat split.
  intros E. apply Qeq_bool_iff in E. congruence.
Qed.


Lemma ratio_le (e1 b1 e2 b2 : Q) :
  0 < b1 -> 0 < b2 -> e1 * b2 <= e2 * b1 -> e1 / b1 <= e2 / b2.
Proof.
  intros H1 H2 H.
  apply Qle_shift_div_l; [exact H2 |].
  assert (E : e1 / b1 * b2 == (e1 * b2) / b1) by (field; lra).
  rewrite E.
  apply Qle_shift_div_r; [exact H1 | exact H].
Qed.

Lemma impact_nonneg (self : MarketImpactModel) (side : string) (order_size : Q)
    (order_book : OrderBook) (impact : Q) :
  power_monotone pow (delta self) -> impact_model_ok self -> 0 < order_size ->
  calculate_impact pow self side order_size order_book "default" = Ok impact ->
  0 <= impact.
Proof.
  intros Hpow [Hg Ha] Hs H.
  apply calculate_impact_inv in H. destruct H as (a & lf & A & _ & LF & ->).
  apply liquidity_factor_range in LF. specialize (Ha a A).
  assert (Hx : 0 < order_size / a) by (apply Qlt_shift_div_l; lra).
  destruct (Hpow _ _ Hx (Qle_refl _)) as [Hp _].
  apply Qmult_le_0_compat; [apply Qmult_le_0_compat |]; lra.
Qed.

Lemma simulate_on_book_costs_nonneg
    (self : ExecutionEngine) (side order_type : string) (order_quantity : Q)
    (order_book : OrderBook) (order_price : option Q)
    (user_fee_profile : gmap string Q) (r : ExecutionResult) :
  power_monotone pow (delta (impact_model self)) ->
  impact_model_ok (impact_model self) ->
  simulate_on_book pow self side order_type order_quantity order_book order_price
    user_fee_profile = Ok r ->
  0 <= slippage_pct r /\ 0 <= market_impact_pct r.
Proof.
  intros Hpow Hm H. apply simulate_on_book_inv in H.
  destruct H as (f & _ & [(_ & ->) | (Hpos & i & fr & H)]); [simpl; split; lra |].
  cbv zeta in H. destruct H as (I & _ & _ & _ & _ & _ & -> & -> & _).
  split; apply pyround_nonneg.
  - apply calculate_slippage_nonneg.
  - apply (impact_nonneg _ _ _ _ _ Hpow Hm Hpos I).
Qed.


End Properties.

(** * Evaluations *)

(** C1, at the input [buy market 1000] on a book with one ask [100 x 1]
    and the profile [maker 0.01, taker 0.03]: the fill is [partial], and the
    fee is 0.01, the maker rate on the 100 filled; the taker rate gives 0.03. *)
Theorem partial_fill_charged_maker_rate :
  exists r,
    fst (simulate_order_execution demo_pow Z demo_uniform
           "buy" "market" 1000 (Some thin_book) None 0 (Some vip_profile)
           demo_world) = Ok r /\
    execution_type r = "partial" /\
    executed_quantity_quote r == 100 /\
    fee_paid r == 0.01 /\
    pyround (calculate_fee MakerTakerFeeModel_init 100 0.01 "partial") 2 == 0.01 /\
    pyround (calculate_fee MakerTakerFeeModel_init 100 0.03 "partial") 2 == 0.03.
Proof.
  eexists. split; [vm_compute; reflexivity |].
  repeat split; reflexivity.
Qed.

(** ** The stand-in runtime meets what the statements ask *)

Lemma demo_uniform_in_range : uniform_in_range Z demo_uniform.
Proof.
  intros g a b Hab. unfold demo_uniform. simpl.
  pose proof (Z.mod_pos_bound g 1000 eq_refl) as [H0 H1].
  assert (T0 : 0 <= inject_Z (g mod 1000)) by (unfold Qle; simpl; lia).
  assert (T1 : inject_Z (g mod 1000) <= 1000) by (unfold Qle; simpl; lia).
  assert (K0 : 0 <= inject_Z (g mod 1000) / 1000) by (apply Qle_shift_div_l; lra).
  assert (K1 : inject_Z (g mod 1000) / 1000 <= 1) by (apply Qle_shift_div_r; lra).
  set (t := inject_Z (g mod 1000) / 1000) in *.
  split; nra.
Qed.

Lemma fixed_sqrt_monotone (x y : Q) :
  x <= y -> 0 <= fixed_sqrt x /\ fixed_sqrt x <= fixed_sqrt y.
Proof.
  intros Hxy. unfold fixed_sqrt.
  assert (Hf : (Qfloor (x * 10000000000000000) <= Qfloor (y * 10000000000000000))%Z)
    by (apply Qfloor_resp_le; lra).
  apply Z.sqrt_le_mono in Hf.
  pose proof (Z.sqrt_nonneg (Qfloor (x * 10000000000000000))) as Hn.
  assert (0 <= inject_Z (Z.sqrt (Qfloor (x * 10000000000000000))))
    by (change 0 with (inject_Z 0); rewrite <- Zle_Qle; exact Hn).
  assert (inject_Z (Z.sqrt (Qfloor (x * 10000000000000000))) <=
          inject_Z (Z.sqrt (Qfloor (y * 10000000000000000))))
    by (rewrite <- Zle_Qle; exact Hf).
  split.
  - apply Qle_shift_div_l; lra.
  - apply Qmult_le_compat_r; [assumption | discriminate].
Qed.

Lemma demo_pow_monotone : power_monotone demo_pow 0.5.
Proof.
  intros x y _ Hxy. unfold demo_pow. simpl. apply fixed_sqrt_monotone, Hxy.
Qed.

Lemma demo_impact_model_ok : impact_model_ok (impact_model (engine demo_world)).
Proof.
  split; [discriminate |].
  intros a H. vm_compute in H. inversion H. reflexivity.
Qed.

Lemma mock_asks_ok :
  levels_ok [(27355, 1); (27360, 2); (27365, 3); (27370, 4); (27375, 5)].
Proof. repeat constructor; simpl; lra. Qed.

(** ** The theorems at concrete inputs *)

(** [side = "hold"] is rejected. *)
Lemma invalid_input_fails_witness :
  violates_validation "hold" "market" 100 (Some mock_order_book) None /\
  exists r,
    simulate_order_execution demo_pow Z demo_uniform
      "hold" "market" 100 (Some mock_order_book) None 0 None demo_world
    = (Ok r, demo_world) /\
    is_fail_result r "Invalid input parameters".
Proof.
  assert (V : violates_validation "hold" "market" 100 (Some mock_order_book) None)
    by (left; split; vm_compute; discriminate).
  split; [exact V |].
  exact (invalid_input_fails demo_pow Z demo_uniform
           "hold" "market" 100 (Some mock_order_book) None 0 None demo_world V).
Defined.

(** A buy limit at 27000 under a best ask of 27355, with 250 ms of latency. *)
Lemma non_marketable_limit_fails_witness :
  _validate_inputs "buy" "limit" 1000 (Some mock_order_book) (Some 27000) = true /\
  non_marketable_limit "buy" "limit" mock_order_book 27000 /\
  exists r w',
    simulate_order_execution demo_pow Z demo_uniform
      "buy" "limit" 1000 (Some mock_order_book) (Some 27000) 250 None demo_world
    = (Ok r, w') /\
    is_fail_result r no_execution_message /\
    execution_type r <> "maker".
Proof.
  assert (V : _validate_inputs "buy" "limit" 1000 (Some mock_order_book) (Some 27000)
              = true) by (vm_compute; reflexivity).
  assert (N : non_marketable_limit "buy" "limit" mock_order_book 27000).
  { split; [reflexivity |].
    exists [(27350.5, 1.5); (27345, 2); (27340, 3); (27335, 4); (27330, 5)],
           [(27355, 1); (27360, 2); (27365, 3); (27370, 4); (27375, 5)].
    split; [vm_compute; reflexivity |]. split; [vm_compute; reflexivity |].
    split; [discriminate |]. split; [discriminate |].
    left. split; reflexivity. }
  split; [exact V |]. split; [exact N |].
  exact (non_marketable_limit_fails demo_pow Z demo_uniform
           "buy" "limit" 1000 mock_order_book 27000 250 None demo_world
           demo_uniform_in_range V N).
Defined.


(** A market buy of 1000 on one ask of [100 x 1]: a partial fill of 100. *)
Lemma execution_type_partition_witness :
  exists r,
    simulate_order_execution demo_pow Z demo_uniform
      "buy" "market" 1000 (Some thin_book) None 0 None demo_world
    = (Ok r, demo_world) /\
    In (execution_type r) ["taker"; "maker"; "partial"; "fail"] /\
    execution_type r <> "maker" /\
    (execution_type r = "partial" <->
     exists book book' f,
       Some thin_book = Some book /\
       _validate_inputs "buy" "market" 1000 (Some thin_book) None = true /\
       latency_step Z demo_uniform book 0 demo_world = (Ok book', demo_world) /\
       fill_phase "buy" "market" 1000 book' None = Ok f /\
       0 < fill_quote f < 1000 /\
       executed_quantity_quote r = pyround (fill_quote f) 2).
Proof.
  eexists. split; [vm_compute; reflexivity |].
  apply (execution_type_partition demo_pow Z demo_uniform
           "buy" "market" 1000 (Some thin_book) None 0 None demo_world demo_world).
  vm_compute; reflexivity.
Defined.

(** The book-walk estimate for a buy of 300 on the book of the tests. *)
Lemma rule_based_slippage_floored_witness :
  exists v avg,
    estimate_slippage demo_pow {| use_ml_model := false |} "buy" 300 mock_order_book
    = Ok v /\
    0 <= v /\
    (0 < avg -> v == Qmax 0 (signed_slippage "buy" ((27350.5 + 27355) / 2) avg)).
Proof.
  destruct (rule_based_slippage_floored demo_pow {| use_ml_model := false |}
              "buy" 300 mock_order_book
              [(27350.5, 1.5); (27345, 2); (27340, 3); (27335, 4); (27330, 5)]
              [(27355, 1); (27360, 2); (27365, 3); (27370, 4); (27375, 5)]
              [(27355, 1); (27360, 2); (27365, 3); (27370, 4); (27375, 5)])
    as (v & avg & H).
  - reflexivity.
  - vm_compute; reflexivity.
  - vm_compute; reflexivity.
  - reflexivity.
  - reflexivity.
  - vm_compute; reflexivity.
  - repeat constructor; simpl; intros E; discriminate E.
  - cbv zeta in H. destruct H as (E & _ & _ & Hv & Hpos & _).
    exists v, avg. split; [exact E |]. split; [exact Hv | exact Hpos].
Defined.


(** A rejected update of the BTC-USDT entry, and an accepted one. *)
Lemma update_adv_guarded_witness :
  adv (update_adv (impact_model ExecutionEngine_init) "BTC-USDT" (-5)) =
  adv (impact_model ExecutionEngine_init) /\
  adv (update_adv (impact_model ExecutionEngine_init) "BTC-USDT" 2000000000)
    !! "BTC-USDT" = Some 2000000000.
Proof.
  split.
  - apply (proj1 (update_adv_guarded demo_pow (impact_model ExecutionEngine_init)
                    "BTC-USDT" (-5))).
    discriminate.
  - apply (proj2 (update_adv_guarded demo_pow (impact_model ExecutionEngine_init)
                    "BTC-USDT" 2000000000)).
    reflexivity.
Defined.

(** A partial fill under the rebate profile: the fee is 0, not negative. *)
Lemma fee_paid_nonneg_witness :
  exists r,
    simulate_order_execution demo_pow Z demo_uniform
      "buy" "market" 1000 (Some thin_book) None 0 (Some rebate_profile) demo_world
    = (Ok r, demo_world) /\
    0 <= fee_paid r /\
    calculate_fee MakerTakerFeeModel_init 100 (-0.01) "partial" = 0.
Proof.
  destruct (fee_paid_nonneg demo_pow Z demo_uniform
              "buy" "market" 1000 (Some thin_book) None 0 (Some rebate_profile)
              demo_world demo_world
              {| executed_quantity_base := 1.00000000;
                 executed_quantity_quote := 100.00;
                 average_price := 100.00;
                 slippage_pct := 0.50;
                 market_impact_pct := 0.00;
                 fee_paid := 0.00;
                 execution_type := "partial";
                 warnings := ["Order partially filled: 100.00/1000.00 partial"] |})
    as [H1 H2].
  - vm_compute; reflexivity.
  - eexists. split; [vm_compute; reflexivity |]. split; [exact H1 |].
    apply (H2 100 (-0.01) "partial"). right. reflexivity.
Defined.

(** ** Inputs on which the specification's wording fails *)

(** C2: the resting limit order comes back as [fail], not [maker], and the
    warning is the no-execution one. *)
Lemma non_marketable_limit_is_fail :
  _validate_inputs "buy" "limit" 1000 (Some mock_order_book) (Some 27000) = true /\
  exists r,
    fst (simulate_order_execution demo_pow Z demo_uniform
           "buy" "limit" 1000 (Some mock_order_book) (Some 27000) 0 None demo_world)
    = Ok r /\
    execution_type r = "fail" /\
    execution_type r <> "maker" /\
    warnings r = [no_execution_message] /\
    ~ In "Limit order placed but not immediately executed" (warnings r).
Proof.
  split; [vm_compute; reflexivity |].
  eexists. split; [vm_compute; reflexivity |].
  split; [reflexivity |]. split; [discriminate |]. split; [reflexivity |].
  simpl. intros [E | []]. discriminate E.
Qed.


(** C5: a fill of 0.004 out of 1 is [partial] and reported as 0.00. *)
Lemma partial_with_zero_reported :
  exists r,
    fst (simulate_order_execution demo_pow Z demo_uniform
           "buy" "market" 1 (Some dust_book) None 0 None demo_world) = Ok r /\
    execution_type r = "partial" /\
    executed_quantity_quote r == 0 /\
    ~ (0 < executed_quantity_quote r /\ executed_quantity_quote r < 1).
Proof.
  eexists. split; [vm_compute; reflexivity |].
  split; [reflexivity |]. split; [reflexivity |]. simpl. intros [H _]. lra.
Qed.

(** C6: on a crossed book the signed value is negative and the book-walk
    estimate is 0. *)
Lemma rule_based_estimate_not_signed :
  exists mid avg,
    rule_based_prices "buy" 10 crossed_book = Ok (Some (mid, avg)) /\
    mid == 95 /\ avg == 90 /\
    signed_slippage "buy" mid avg < 0 /\
    estimate_slippage demo_pow {| use_ml_model := false |} "buy" 10 crossed_book
    = Ok 0 /\
    ~ 0 == signed_slippage "buy" mid avg.
Proof.
  eexists _, _. split; [vm_compute; reflexivity |].
  split; [reflexivity |]. split; [reflexivity |]. split; [reflexivity |].
  split; [vm_compute; reflexivity |]. intros E. discriminate E.
Qed.


(** * Further properties of the models *)

(** Case analysis on the comparisons of the goal, each turned into the
    order fact it decides. *)
Ltac q_bool_cases :=
  repeat match goal with
  | |- context [Qlt_bool ?a ?b] =>
      let E := fresh "E" in
      destruct (Qlt_bool a b) eqn:E;
      [apply Qlt_bool_iff in E | apply Qlt_bool_false in E]
  | |- context [Qle_bool ?a ?b] =>
      let E := fresh "E" in
      destruct (Qle_bool a b) eqn:E;
      [apply Qle_bool_iff in E | apply Qle_bool_false in E]
  end.

(** ** fee_model.py *)

Lemma tier_multiplier_bounds (self : MakerTakerFeeModel) (q1 q2 : Q) :
  q1 <= q2 ->
  0.7 <= _get_tier_multiplier self q2 /\
  _get_tier_multiplier self q2 <= _get_tier_multiplier self q1 /\
  _get_tier_multiplier self q1 <= 1 /\
  In (_get_tier_multiplier self q1) [0.7; 0.8; 0.9; 1].
Proof.
  intros H. unfold _get_tier_multiplier.
  q_bool_cases; simpl; repeat split; try lra; auto 10.
Qed.

(** X1: the order-size discount of the rule-based estimate has four
    steps with exclusive thresholds: 1 up to 10000, 0.9 above 10000 and up to
    100000, 0.8 above 100000 and up to 1000000, 0.7 above 1000000; so it
    never grows with the order size. *)
Theorem tier_multiplier_discount (self : MakerTakerFeeModel) (q1 q2 : Q) :
  q1 <= q2 ->
  (_get_tier_multiplier self q1 = 1 <-> q1 <= 10000) /\
  (_get_tier_multiplier self q1 = 0.9 <-> 10000 < q1 /\ q1 <= 100000) /\
  (_get_tier_multiplier self q1 = 0.8 <-> 100000 < q1 /\ q1 <= 1000000) /\
  (_get_tier_multiplier self q1 = 0.7 <-> 1000000 < q1) /\
  _get_tier_multiplier self q2 <= _get_tier_multiplier self q1.
Proof.
  intros H.
  split; [| split; [| split; [| split]]];
    [| | | | exact (proj1 (proj2 (tier_multiplier_bounds self q1 q2 H)))];
    unfold _get_tier_multiplier; q_bool_cases;
    (split; [intros T; first [discriminate T | lra | split; lra]
            | intros T; first [reflexivity | exfalso; lra]]).
Qed.

Lemma profile_not_empty (profile : gmap string PyVal) (k : string) (v : PyVal) :
  profile !! k = Some v -> bool_decide (profile = ∅) = false.
Proof.
  intros H. apply bool_decide_eq_false. intros ->.
  rewrite lookup_empty in H. discriminate.
Qed.

Lemma volume_rates (self : MakerTakerFeeModel) (profile : gmap string PyVal)
    (volume : Q) :
  profile !! "vip_tier" = None ->
  profile !! "trading_volume" = Some (PyNum volume) ->
  _get_fee_rates self (Some profile) =
  Ok (snd (fst (tier_scan volume fee_tiers (0, 0.06, 0.08))),
      snd (tier_scan volume fee_tiers (0, 0.06, 0.08))).
Proof.
  intros Hv Ht. unfold _get_fee_rates.
  rewrite (profile_not_empty _ _ _ Ht), Hv, Ht. reflexivity.
Qed.

(** X2: for a profile with a trading volume and no VIP tier, the rates
    come from the volume tiers: the taker rate is the maker rate plus 0.02,
    the maker rate is between 0.01 and 0.06, a larger volume never has a
    higher rate, and a volume below every tier (a negative one) has the
    rates of the first tier. *)
Theorem volume_tier_rates (self : MakerTakerFeeModel)
    (p1 p2 : gmap string PyVal) (v1 v2 : Q) :
  p1 !! "vip_tier" = None -> p1 !! "trading_volume" = Some (PyNum v1) ->
  p2 !! "vip_tier" = None -> p2 !! "trading_volume" = Some (PyNum v2) ->
  v1 <= v2 ->
  exists m1 t1 m2 t2,
    _get_fee_rates self (Some p1) = Ok (m1, t1) /\
    _get_fee_rates self (Some p2) = Ok (m2, t2) /\
    m2 <= m1 /\ t2 <= t1 /\
    t1 == m1 + 0.02 /\ t2 == m2 + 0.02 /\
    0.01 <= m2 /\ m1 <= 0.06 /\
    (v1 < 0 -> m1 == 0.06 /\ t1 == 0.08).
Proof.
  intros Hv1 Ht1 Hv2 Ht2 Hle.
  eexists _, _, _, _.
  split; [exact (volume_rates self p1 v1 Hv1 Ht1) |].
  split; [exact (volume_rates self p2 v2 Hv2 Ht2) |].
  simpl. q_bool_cases; simpl; repeat split; first [lra | intros ?; split; lra].
Qed.

Lemma vip_profiles_lookup (name : string) (maker taker : Q) :
  vip_profiles !! name = Some (maker, taker) ->
  (name = "institutional" /\ maker = 0.01 /\ taker = 0.03) \/
  (name = "market_maker" /\ maker = -0.01 /\ taker = 0.02) \/
  (name = "retail" /\ maker = 0.06 /\ taker = 0.08).
Proof.
  unfold vip_profiles. intros H.
  destruct (decide (name = "institutional")) as [-> | N1].
  { rewrite lookup_insert_eq in H. inversion H. auto. }
  rewrite lookup_insert_ne in H by congruence.
  destruct (decide (name = "market_maker")) as [-> | N2].
  { rewrite lookup_insert_eq in H. inversion H. auto. }
  rewrite lookup_insert_ne in H by congruence.
  destruct (decide (name = "retail")) as [-> | N3].
  { rewrite lookup_insert_eq in H. inversion H. auto 10. }
  rewrite lookup_insert_ne in H by congruence.
  rewrite lookup_empty in H. discriminate.
Qed.

Lemma fee_rates_cases (self : MakerTakerFeeModel)
    (user_profile : option (gmap string PyVal)) :
  default_maker_fee self = 0.06 -> default_taker_fee self = 0.08 ->
  (exists maker taker,
     _get_fee_rates self user_profile = Ok (maker, taker) /\
     -0.01 <= maker /\ maker < taker /\ taker <= 0.08) \/
  (_get_fee_rates self user_profile = Raise TypeError /\
   exists profile s,
     user_profile = Some profile /\
     profile !! "trading_volume" = Some (PyStr s)).
Proof.
  intros Dm Dt. unfold _get_fee_rates. rewrite Dm, Dt.
  destruct user_profile as [profile |];
    [| left; exists 0.06, 0.08; repeat split; lra].
  destruct (bool_decide (profile = ∅));
    [left; exists 0.06, 0.08; repeat split; lra |].
  set (vip := match profile !! "vip_tier" with
              | Some (PyStr name) => vip_profiles !! name
              | _ => None
              end).
  assert (Hvip : forall m t, vip = Some (m, t) ->
                   -0.01 <= m /\ m < t /\ t <= 0.08).
  { intros m t. unfold vip.
    destruct (profile !! "vip_tier") as [[name | x] |]; try discriminate.
    intros H. apply vip_profiles_lookup in H.
    destruct H as [(_ & -> & ->) | [(_ & -> & ->) | (_ & -> & ->)]];
      repeat split; lra. }
  destruct vip as [[m t] |].
  - left. exists m, t. split; [reflexivity | apply Hvip; reflexivity].
  - destruct (profile !! "trading_volume") as [[s | volume] |] eqn:V.
    + right. split; [reflexivity |]. exists profile, s. auto.
    + left. eexists _, _. split; [reflexivity |].
      simpl. q_bool_cases; simpl; repeat split; lra.
    + left. exists 0.06, 0.08. repeat split; lra.
Qed.

(** X3: with the default rates of [__init__] (0.06 and 0.08), whatever the
    profile holds, the rates [_get_fee_rates] returns satisfy
    [-0.01 <= maker < taker <= 0.08]; the one way it raises is [TypeError],
    for a trading volume that is not a number under no known VIP tier. *)
Theorem fee_rates_invariant (self : MakerTakerFeeModel)
    (user_profile : option (gmap string PyVal)) :
  default_maker_fee self = 0.06 -> default_taker_fee self = 0.08 ->
  (exists maker taker,
     _get_fee_rates self user_profile = Ok (maker, taker) /\
     -0.01 <= maker /\ maker < taker /\ taker <= 0.08) \/
  (_get_fee_rates self user_profile = Raise TypeError /\
   exists profile s,
     user_profile = Some profile /\
     profile !! "trading_volume" = Some (PyStr s)).
Proof. exact (fee_rates_cases self user_profile). Qed.

(** X4: a known VIP tier decides the rates: two profiles with the same
    known [vip_tier] get the same rates whatever else they hold, also a
    trading volume that is not a number, and those rates are the VIP ones
    even for a volume that would reach a cheaper tier. *)
Theorem vip_tier_decides (self : MakerTakerFeeModel)
    (p1 p2 : gmap string PyVal) (name : string) (maker taker : Q) :
  p1 !! "vip_tier" = Some (PyStr name) ->
  p2 !! "vip_tier" = Some (PyStr name) ->
  vip_profiles !! name = Some (maker, taker) ->
  _get_fee_rates self (Some p1) = Ok (maker, taker) /\
  _get_fee_rates self (Some p2) = _get_fee_rates self (Some p1).
Proof.
  intros H1 H2 Hv.
  assert (R : forall p, p !! "vip_tier" = Some (PyStr name) ->
                _get_fee_rates self (Some p) = Ok (maker, taker)).
  { intros p Hp. unfold _get_fee_rates.
    rewrite (profile_not_empty _ _ _ Hp), Hp, Hv. reflexivity. }
  rewrite (R p1 H1), (R p2 H2). auto.
Qed.

Lemma best_price_present (book : OrderBook) (key : string) (levels : list Level) :
  book !! key = Some levels -> best_price book key = Ok (first_price levels).
Proof. intros H. unfold best_price, getitem. rewrite H. reflexivity. Qed.

Section FeeEstimates.

Variable exp : Q -> option Q.
Variable log : Q -> option Q.

(** X5: in rule-based mode the estimate for an order that is not a market
    order does not depend on the side or on what the book holds: any two
    books that have both sides give the same estimate; a book without a
    ["bids"] entry raises [KeyError]. *)
Theorem rule_based_limit_ignores_book (self : MakerTakerFeeModel) (order_size : Q)
    (side1 side2 order_type : string) (book1 book2 : OrderBook)
    (bids1 asks1 bids2 asks2 : list Level)
    (user_profile : option (gmap string PyVal)) :
  use_ml self = false ->
  lower order_type <> "market" ->
  book1 !! "bids" = Some bids1 -> book1 !! "asks" = Some asks1 ->
  book2 !! "bids" = Some bids2 -> book2 !! "asks" = Some asks2 ->
  estimate exp log self order_size side1 (Some book1) order_type user_profile =
  estimate exp log self order_size side2 (Some book2) order_type user_profile /\
  forall book, book !! "bids" = None ->
    estimate exp log self order_size side1 (Some book) order_type user_profile =
    Raise (KeyError "bids").
Proof.
  intros Hml Ht B1 A1 B2 A2.
  apply String.eqb_neq in Ht.
  unfold estimate, _estimate_rule_based. rewrite Hml, Ht.
  rewrite (best_price_present _ _ _ B1), (best_price_present _ _ _ A1).
  rewrite (best_price_present _ _ _ B2), (best_price_present _ _ _ A2).
  split; [reflexivity |].
  intros book Hb. unfold best_price, getitem. rewrite Hb. reflexivity.
Qed.

(** X6: in rule-based mode, with the default rates of [__init__], when the
    rates can be read from the profile the estimate for a limit order is
    strictly below the one for a market order of the same size and profile,
    and both lie between -0.01 and 0.08; with a profile the size plays no
    part, without one both estimates carry the same size discount. *)
Theorem rule_based_market_above_limit (self : MakerTakerFeeModel) (order_size : Q)
    (side : string) (book : OrderBook) (bids asks : list Level)
    (market_type limit_type : string)
    (user_profile : option (gmap string PyVal)) (maker taker : Q) :
  use_ml self = false ->
  default_maker_fee self = 0.06 -> default_taker_fee self = 0.08 ->
  lower market_type = "market" -> lower limit_type <> "market" ->
  book !! "bids" = Some bids -> book !! "asks" = Some asks ->
  _get_fee_rates self user_profile = Ok (maker, taker) ->
  exists fee_limit fee_market,
    estimate exp log self order_size side (Some book) limit_type user_profile
      = Ok fee_limit /\
    estimate exp log self order_size side (Some book) market_type user_profile
      = Ok fee_market /\
    -0.01 <= fee_limit /\ fee_limit < fee_market /\ fee_market <= 0.08 /\
    (profile_missing user_profile = false ->
     fee_limit = maker /\ fee_market = taker) /\
    (profile_missing user_profile = true ->
     fee_limit == 0.06 * _get_tier_multiplier self order_size /\
     fee_market == 0.08 * _get_tier_multiplier self order_size).
Proof.
  intros Hml Dm Dt Hm Hl B A R.
  apply String.eqb_neq in Hl.
  destruct (fee_rates_cases self user_profile Dm Dt)
    as [(m & t & R' & I1 & I2 & I3) | [R' _]]; [| congruence].
  assert (m = maker) by congruence. assert (t = taker) by congruence. subst m t.
  unfold estimate, _estimate_rule_based. rewrite Hml, Hm, Hl.
  rewrite (best_price_present _ _ _ B), (best_price_present _ _ _ A), R. simpl.
  destruct (profile_missing user_profile) eqn:P.
  - assert (maker = 0.06 /\ taker = 0.08) as [-> ->].
    { unfold profile_missing in P. unfold _get_fee_rates in R.
      destruct user_profile as [p |]; [rewrite P in R |];
        inversion R; subst; auto. }
    destruct (tier_multiplier_bounds self order_size order_size (Qle_refl _))
      as (M1 & _ & M2 & _).
    eexists _, _. split; [reflexivity |]. split; [reflexivity |].
    repeat split; try discriminate; try reflexivity; nra.
  - eexists _, _. split; [reflexivity |]. split; [reflexivity |].
    repeat split; try discriminate; lra.
Qed.

End FeeEstimates.

(** X7: for a buy or a sell, market or limit, on a book with both sides
    non-empty, [predict_execution_type] answers ["taker"] exactly when the
    marketability test of the engine holds, and ["maker"] exactly when it
    fails; with a missing limit price both raise [TypeError]. *)
Theorem predict_agrees_with_engine (self : MakerTakerFeeModel)
    (side order_type : string) (order_price : option Q) (order_book : OrderBook)
    (bids asks : list Level) :
  lower side = "buy" \/ lower side = "sell" ->
  lower order_type = "market" \/ lower order_type = "limit" ->
  order_book !! "bids" = Some bids -> order_book !! "asks" = Some asks ->
  bids <> [] -> asks <> [] ->
  (predict_execution_type self side order_type order_price order_book = Ok "taker" <->
   is_marketable side order_type order_price (first_price bids) (first_price asks)
   = Ok true) /\
  (predict_execution_type self side order_type order_price order_book = Ok "maker" <->
   is_marketable side order_type order_price (first_price bids) (first_price asks)
   = Ok false) /\
  (predict_execution_type self side order_type order_price order_book
   = Raise TypeError <->
   is_marketable side order_type order_price (first_price bids) (first_price asks)
   = Raise TypeError).
Proof.
  intros Hs Ht Hb Ha Hbn Han.
  unfold predict_execution_type, is_marketable, getitem. rewrite Hb, Ha.
  destruct bids as [| b0 bids']; [congruence |].
  destruct asks as [| a0 asks']; [congruence |].
  destruct Ht as [Ht | Ht]; rewrite Ht; simpl.
  - repeat split; intros H; try reflexivity; discriminate H.
  - destruct Hs as [Hs | Hs]; rewrite Hs; simpl;
      destruct order_price as [p |]; simpl;
      try (destruct (Qle_bool _ _); simpl);
      repeat split; intros H; try reflexivity; discriminate H.
Qed.

Section LogisticEstimate.

Variable exp : Q -> option Q.
Variable log : Q -> option Q.

Lemma sigmoid_cases (self : MakerTakerFeeModel) (x : Q) :
  exp_positive exp ->
  exists y,
    _sigmoid exp self x = Ok y /\ 0 <= y <= 1 /\
    (exp (- x) = None -> (x < 0 -> y = 0) /\ (0 <= x -> y = 1)).
Proof.
  intros Hexp. unfold _sigmoid.
  destruct (exp (- x)) as [e |] eqn:E.
  - apply Hexp in E. rewrite pydiv_pos by lra.
    exists (1 / (1 + e)). split; [reflexivity |]. split; [| discriminate].
    split.
    + apply Qle_shift_div_l; lra.
    + apply Qle_shift_div_r; lra.
  - destruct (Qlt_bool x 0) eqn:N.
    + apply Qlt_bool_iff in N. exists 0. repeat split; try lra; intros; lra.
    + apply Qlt_bool_false in N. exists 1. repeat split; try lra; intros; lra.
Qed.

(** X8: when [math.exp] returns positive values, [_sigmoid] never raises
    and returns a value between 0 and 1; when [math.exp] overflows it
    returns 0 for a negative argument and 1 otherwise. *)
Theorem sigmoid_saturates (self : MakerTakerFeeModel) (x : Q) :
  exp_positive exp ->
  exists y,
    _sigmoid exp self x = Ok y /\ 0 <= y <= 1 /\
    (exp (- x) = None -> (x < 0 -> y = 0) /\ (0 <= x -> y = 1)).
Proof. exact (sigmoid_cases self x). Qed.

Lemma prob_taker_range (self : MakerTakerFeeModel) (order_size : Q)
    (order_book : option OrderBook) (order_type : string) :
  exp_positive exp ->
  exists p,
    prob_taker exp log self order_size order_book order_type = Ok p /\
    0 <= p <= 1 /\
    (lower order_type = "market" -> p = 1).
Proof.
  intros Hexp. unfold prob_taker.
  destruct (String.eqb (lower order_type) "market") eqn:M.
  { exists 1. repeat split; lra. }
  apply String.eqb_neq in M.
  assert (H05 : exists p : Q, Ok 0.5 = Ok p /\ 0 <= p <= 1 /\
                  (lower order_type = "market" -> p = 1)).
  { exists 0.5. split; [reflexivity |]. split; [lra | contradiction]. }
  destruct order_book as [book |]; [| exact H05].
  destruct (bool_decide (book = ∅)); [exact H05 |].
  destruct (book !! "bids") as [bids |]; [| exact H05].
  destruct (book !! "asks") as [asks |]; [| exact H05].
  destruct (Qle_bool (first_price bids) 0 || Qle_bool (first_price asks) 0)%bool;
    [exact H05 |].
  match goal with
  | |- context [_sigmoid exp self ?z] =>
      destruct (sigmoid_cases self z Hexp) as (y & -> & Hy & _)
  end.
  exists y. split; [reflexivity |]. split; [exact Hy | contradiction].
Qed.

(** X9: when [math.exp] returns positive values and the rates can be read
    from the profile, the logistic estimate returns, for every order and
    book (also a missing or one-sided book), a value between the smaller
    and the larger of the two rates, each rounded to 4 decimals; for a
    market order it is the taker rate rounded. *)
Theorem ml_estimate_between_rates (self : MakerTakerFeeModel) (order_size : Q)
    (side : string) (order_book : option OrderBook) (order_type : string)
    (user_profile : option (gmap string PyVal)) (maker taker : Q) :
  exp_positive exp ->
  _get_fee_rates self user_profile = Ok (maker, taker) ->
  exists v,
    _estimate_ml exp log self order_size side order_book order_type user_profile
      = Ok v /\
    pyround (Qmin maker taker) 4 <= v /\
    v <= pyround (Qmax maker taker) 4 /\
    (lower order_type = "market" -> v == pyround taker 4).
Proof.
  intros Hexp R. unfold _estimate_ml.
  destruct (prob_taker_range self order_size order_book order_type Hexp)
    as (p & -> & [Hp0 Hp1] & Hm).
  rewrite R. simpl. eexists. split; [reflexivity |].
  pose proof (Q.le_min_l maker taker). pose proof (Q.le_min_r maker taker).
  pose proof (Q.le_max_l maker taker). pose proof (Q.le_max_r maker taker).
  set (lo := Qmin maker taker) in *. set (hi := Qmax maker taker) in *.
  assert (0 <= p * (taker - lo)) by (apply Qmult_le_0_compat; lra).
  assert (0 <= (1 - p) * (maker - lo)) by (apply Qmult_le_0_compat; lra).
  assert (0 <= p * (hi - taker)) by (apply Qmult_le_0_compat; lra).
  assert (0 <= (1 - p) * (hi - maker)) by (apply Qmult_le_0_compat; lra).
  split; [apply pyround_mono; nra |]. split; [apply pyround_mono; nra |].
  intros Hmk. rewrite (Hm Hmk). apply pyround_eq. ring.
Qed.

End LogisticEstimate.

(** ** impact_model.py *)

Section ImpactProperties.

Variable pow : Q -> Q -> Q.

Lemma calculate_impact_parts (self : MarketImpactModel) (side : string)
    (order_size : Q) (order_book : OrderBook) (symbol : string) (impact : Q) :
  calculate_impact pow self side order_size order_book symbol = Ok impact ->
  exists a lf,
    adv_for self symbol = Ok a /\ ~ a == 0 /\
    _calculate_liquidity_factor self side order_book = Ok lf /\
    impact = gamma self * pow (order_size / a) (delta self) * lf.
Proof.
  unfold calculate_impact.
  destruct (adv_for self symbol) as [a | ex]; simpl; [| discriminate].
  unfold pydiv. destruct (Qeq_bool a 0) eqn:Z; simpl; [discriminate |].
  destruct (_calculate_liquidity_factor self side order_book) as [lf | ex]; simpl;
    [| discriminate].
  intros H. inversion H; subst. exists a, lf. repeat split.
  intros E. apply Qeq_bool_iff in E. congruence.
Qed.

Lemma liquidity_factor_uncrossed (self : MarketImpactModel) (side : string)
    (order_book : OrderBook) (bids asks : list Level) (lf : Q) :
  order_book !! "bids" = Some bids -> order_book !! "asks" = Some asks ->
  first_price bids <= first_price asks ->
  _calculate_liquidity_factor self side order_book = Ok lf ->
  1 <= lf <= 3.
Proof.
  intros Hb Ha Hun. unfold _calculate_liquidity_factor.
  rewrite (best_price_present _ _ _ Hb), (best_price_present _ _ _ Ha). simpl.
  set (bb := first_price bids) in *. set (ba := first_price asks) in *.
  destruct (Qle_bool bb 0) eqn:B0; simpl;
    [intros H; inversion H; subst; split; lra |].
  destruct (Qle_bool ba 0) eqn:A0; simpl;
    [intros H; inversion H; subst; split; lra |].
  apply Qle_bool_false in B0. apply Qle_bool_false in A0.
  assert (Hmid : 0 < (bb + ba) / 2) by (apply Qlt_shift_div_l; lra).
  rewrite pydiv_pos by exact Hmid. simpl.
  unfold getitem. rewrite Hb, Ha. simpl.
  assert (Hsp : 0 <= (ba - bb) / ((bb + ba) / 2))
    by (apply Qle_shift_div_l; lra).
  set (sp := (ba - bb) / ((bb + ba) / 2)) in *.
  assert (Hfin : forall r : Q,
            1 <= Qmin (Qmax 0.5 ((1 + sp * 10000 / 100) * (1 + Qmax 0 r))) 3 <= 3).
  { intros r. pose proof (Q.le_max_l 0 r) as Hr.
    set (m := Qmax 0 r) in *.
    assert (0 <= sp * 10000 / 100) by (apply Qle_shift_div_l; lra).
    set (k := sp * 10000 / 100) in *.
    assert (1 <= (1 + k) * (1 + m)) by nra.
    split; [| apply Q.le_min_r].
    apply Q.min_glb; [| lra].
    eapply Qle_trans; [eassumption | apply Q.le_max_r]. }
  destruct (String.eqb (lower side) "buy");
    match goal with
    | |- context [pydiv ?x ?y] => destruct (pydiv x y) as [r | ex]
    end; simpl; try discriminate;
    intros H; inversion H; subst; apply Hfin.
Qed.

(** X10: how the impact relates to its two components: for a positive
    order size over a positive ADV, with [gamma >= 0] and a power operator
    that is non-negative and non-decreasing in its base, whenever
    [calculate_impact] returns both component estimates return too,
    [0 <= permanent <= temporary], the impact is not negative, the
    liquidity factor lies between 0.5 and 3, and on a book that is not
    crossed the factor is at least 1 and the impact at least the temporary
    component. *)
Theorem impact_components_ordered (self : MarketImpactModel)
    (side : string) (order_size : Q) (order_book : OrderBook) (symbol : string)
    (a impact : Q) :
  power_monotone pow (delta self) -> 0 <= gamma self ->
  adv_for self symbol = Ok a -> 0 < a -> 0 < order_size ->
  calculate_impact pow self side order_size order_book symbol = Ok impact ->
  exists permanent temporary lf,
    estimate_permanent_impact pow self order_size symbol = Ok permanent /\
    estimate_temporary_impact pow self order_size symbol = Ok temporary /\
    _calculate_liquidity_factor self side order_book = Ok lf /\
    0 <= permanent /\ permanent <= temporary /\ 0 <= impact /\
    0.5 <= lf <= 3 /\
    (forall bids asks,
       order_book !! "bids" = Some bids -> order_book !! "asks" = Some asks ->
       first_price bids <= first_price asks -> 1 <= lf /\ temporary <= impact).
Proof.
  intros Hpow Hg A Ha Hq H. apply calculate_impact_parts in H.
  destruct H as (a' & lf & A' & _ & LF & ->).
  assert (a' = a) by congruence. subst a'.
  unfold estimate_permanent_impact, estimate_temporary_impact. rewrite A. simpl.
  rewrite pydiv_pos by exact Ha. simpl.
  assert (Hx : 0 < order_size / a) by (apply Qlt_shift_div_l; lra).
  destruct (Hpow _ _ Hx (Qle_refl _)) as [Hp _].
  set (P := pow (order_size / a) (delta self)) in *.
  assert (Hgp : 0 <= gamma self * P) by (apply Qmult_le_0_compat; assumption).
  pose proof (liquidity_factor_range self side order_book lf LF) as Hlf.
  eexists _, _, lf. split; [reflexivity |]. split; [reflexivity |].
  split; [exact LF |].
  split; [nra |]. split; [nra |]. split; [nra |]. split; [exact Hlf |].
  intros bids asks Hb Hk Hun.
  pose proof (proj1 (liquidity_factor_uncrossed self side order_book bids asks lf
                       Hb Hk Hun LF)) as H1.
  split; [exact H1 | nra].
Qed.

(** X11: a model built with its own ADV table that has no ["default"]
    entry cannot price anything: [calculate_impact] and both components
    raise [KeyError("default")] for every symbol, also one the table holds,
    because the fallback is looked up before the symbol. *)
Theorem impact_needs_default_entry (gamma0 delta0 : Q) (table : gmap string Q)
    (side : string) (order_size : Q) (order_book : OrderBook) (symbol : string) :
  table <> ∅ -> table !! "default" = None ->
  let model := MarketImpactModel_init gamma0 delta0 (Some table) in
  calculate_impact pow model side order_size order_book symbol
    = Raise (KeyError "default") /\
  estimate_permanent_impact pow model order_size symbol = Raise (KeyError "default") /\
  estimate_temporary_impact pow model order_size symbol = Raise (KeyError "default").
Proof.
  intros Hne Hd. cbv zeta.
  unfold calculate_impact, estimate_permanent_impact, estimate_temporary_impact,
    adv_for, getitem, MarketImpactModel_init. simpl.
  rewrite bool_decide_eq_false_2 by exact Hne. rewrite Hd. auto.
Qed.

Lemma adv_for_after_update (self : MarketImpactModel) (symbol : string) (a v : Q) :
  adv_for self symbol = Ok a -> 0 < v ->
  adv_for (update_adv self symbol v) symbol = Ok v.
Proof.
  intros A Hv. unfold update_adv.
  apply Qle_bool_false in Hv. rewrite Hv.
  unfold adv_for, getitem in *. simpl.
  destruct (adv self !! "default") as [d |] eqn:D; [| discriminate].
  rewrite lookup_insert_eq.
  destruct (decide (symbol = "default")) as [-> | N].
  - rewrite lookup_insert_eq. reflexivity.
  - rewrite lookup_insert_ne by exact N. rewrite D. reflexivity.
Qed.

(** X12: raising the ADV of a symbol with [update_adv] never raises the
    impact computed for it: with [gamma >= 0], a power operator that is
    non-decreasing in its base, and a new value at least the ADV in use
    (the symbol's own or the default), the impact after the update is at
    most the impact before. *)
Theorem larger_adv_lowers_impact (self : MarketImpactModel) (side : string)
    (order_size : Q) (order_book : OrderBook) (symbol : string) (a v impact : Q) :
  power_monotone pow (delta self) -> 0 <= gamma self ->
  adv_for self symbol = Ok a -> 0 < a -> a <= v -> 0 < order_size ->
  calculate_impact pow self side order_size order_book symbol = Ok impact ->
  exists impact',
    calculate_impact pow (update_adv self symbol v) side order_size order_book symbol
      = Ok impact' /\
    impact' <= impact.
Proof.
  intros Hpow Hg A Ha Hv Hs H.
  apply calculate_impact_parts in H.
  destruct H as (a' & lf & A' & _ & LF & ->).
  assert (a' = a) by congruence. subst a'.
  assert (Hv0 : 0 < v) by lra.
  pose proof (adv_for_after_update self symbol a v A Hv0) as U.
  unfold calculate_impact. rewrite U. simpl.
  rewrite pydiv_pos by exact Hv0. simpl.
  assert (LF' : _calculate_liquidity_factor (update_adv self symbol v) side order_book
                = Ok lf) by exact LF.
  rewrite LF'. simpl. eexists. split; [reflexivity |].
  assert (Dl : delta (update_adv self symbol v) = delta self).
  { unfold update_adv. destruct (Qle_bool v 0); reflexivity. }
  assert (Gm : gamma (update_adv self symbol v) = gamma self).
  { unfold update_adv. destruct (Qle_bool v 0); reflexivity. }
  rewrite Dl, Gm.
  apply liquidity_factor_range in LF.
  assert (Hx : 0 < order_size / v) by (apply Qlt_shift_div_l; lra).
  assert (Hxy : order_size / v <= order_size / a).
  { apply ratio_le; try assumption. nra. }
  destruct (Hpow _ _ Hx Hxy) as [Hp0 Hp1].
  apply Qmult_le_compat_r; [| lra].
  rewrite !(Qmult_comm (gamma self)). apply Qmult_le_compat_r; assumption.
Qed.

End ImpactProperties.

(** ** slippage_model.py *)

(** X14: for positive mid and execution prices, [calculate_slippage] is 0
    exactly when the execution price is at the mid price or on the good
    side of it (at or below for a buy, at or above otherwise); the slippage
    of a side other than buy is at most 100. *)
Theorem calculate_slippage_zero_iff (self : SlippageModel) (side : string)
    (mid_price executed_price order_size : Q) :
  0 < mid_price -> 0 < executed_price ->
  (calculate_slippage self side mid_price executed_price order_size == 0 <->
   direction side * executed_price <= direction side * mid_price) /\
  (lower side <> "buy" ->
   calculate_slippage self side mid_price executed_price order_size <= 100).
Proof.
  intros Hm He. unfold calculate_slippage, signed_slippage, direction.
  replace (Qle_bool mid_price 0) with false
    by (symmetry; apply Qle_bool_false; exact Hm).
  replace (Qle_bool executed_price 0) with false
    by (symmetry; apply Qle_bool_false; exact He).
  simpl.
  pose proof (Qinv_lt_0_compat mid_price Hm) as Hk.
  assert (Ek : mid_price * / mid_price == 1) by (apply Qmult_inv_r; lra).
  unfold Qdiv. set (k := / mid_price) in *.
  destruct (String.eqb (lower side) "buy") eqn:B.
  - split; [| intros N; apply String.eqb_eq in B; contradiction].
    set (s := (executed_price - mid_price) * k * 100).
    destruct (Q.max_spec 0 s) as [[Hlt ->] | [Hge ->]]; unfold s in *; split; intros H.
    + exfalso. lra.
    + exfalso. nra.
    + nra.
    + reflexivity.
  - set (s := (mid_price - executed_price) * k * 100).
    assert (Hs100 : s < 100) by (unfold s; nra).
    destruct (Q.max_spec 0 s) as [[Hlt ->] | [Hge ->]]; unfold s in *;
      (split; [split; intros H | intros _]).
    + exfalso. lra.
    + exfalso. nra.
    + lra.
    + nra.
    + reflexivity.
    + lra.
Qed.

(** ** execution_engine.py *)

Lemma perturb_levels_spec (rng : Type) (uniform : rng -> Q -> Q -> Q * rng)
    (direction modification_factor : Q) (levels : list Level) :
  uniform_in_range rng uniform ->
  0 <= modification_factor <= 0.1 ->
  direction * direction == 1 ->
  forall g,
    Forall2 (perturbed direction) levels
      (fst (perturb_levels rng uniform direction modification_factor levels g)).
Proof.
  intros Hu Hm Hd. induction levels as [| [p c] rest IH]; intros g; simpl.
  - constructor.
  - pose proof (Hu g 0 0.5 ltac:(lra)) as U1.
    destruct (uniform g 0 0.5) as [u1 g1]. simpl in U1.
    destruct (uniform g1 (-0.5) 0.5) as [u2 g2].
    specialize (IH g2).
    destruct (perturb_levels rng uniform direction modification_factor rest g2)
      as [rest' g3].
    simpl in *. constructor; [| exact IH].
    unfold perturbed. simpl. split; [apply Q.le_max_l |].
    intros Hp.
    assert (A : 0 <= modification_factor * u1) by (apply Qmult_le_0_compat; lra).
    assert (B : modification_factor * u1 <= 0.05) by nra.
    assert (C : 0 <= p * (modification_factor * u1))
      by (apply Qmult_le_0_compat; lra).
    assert (D : p * (modification_factor * u1) <= p * 0.05) by nra.
    assert (E : direction * (p + p * modification_factor * u1 * direction)
                == direction * p + p * (modification_factor * u1) * (direction * direction))
      by ring.
    rewrite E, Hd. split; lra.
Qed.

Section EngineBehaviour.

Variable pow : Q -> Q -> Q.
Variable rng : Type.
Variable uniform : rng -> Q -> Q -> Q * rng.

Abbreviation simulate := (simulate_order_execution pow rng uniform).

(** X17: the label of a result is decided by comparing the quote amount
    [e] that the walk filled with 0 and with the requested quantity: at
    latency 0, for a valid order, a returned result is [fail] exactly when
    [e <= 0], [partial] exactly when [0 < e < order_quantity] and [taker]
    exactly when [0 < e] and [order_quantity <= e]; the 0.01 that ends the
    walk plays no part, so a walk that stops with at most 0.01 left
    unfilled gives [partial]. *)
Theorem execution_type_by_fill
    (side order_type : string) (order_quantity : Q) (order_book : OrderBook)
    (order_price : option Q) (user_fee_profile : option (gmap string Q))
    (w w' : World rng) (r : ExecutionResult) :
  _validate_inputs side order_type order_quantity (Some order_book) order_price = true ->
  simulate side order_type order_quantity (Some order_book) order_price 0
    user_fee_profile w = (Ok r, w') ->
  exists f,
    fill_phase side order_type order_quantity order_book order_price = Ok f /\
    (execution_type r = "fail" <-> fill_quote f <= 0) /\
    (execution_type r = "partial" <->
     0 < fill_quote f /\ fill_quote f < order_quantity) /\
    (execution_type r = "taker" <->
     0 < fill_quote f /\ order_quantity <= fill_quote f).
Proof.
  intros V H.
  apply simulate_inv in H.
  destruct H as [(V' & _) | (_ & book & book' & Eb & L & H)]; [congruence |].
  inversion Eb; subst book; clear Eb.
  rewrite latency_step_zero in L. inversion L; subst book' w'; clear L.
  apply simulate_on_book_inv in H. destruct H as (f & F & H).
  exists f. split; [exact F |].
  destruct (fill_phase_inv _ _ _ _ _ _ F) as (bb & ba & m & _ & _ & _ & _ & Hf).
  assert (Hty : 0 < fill_quote f -> fill_type f = "taker").
  { destruct Hf as [(_ & Hty & _) | (_ & _ & Z0 & _)]; [auto |].
    rewrite Z0. intros; lra. }
  destruct H as [(Hz & ->) | (Hpos & i & fr & H)].
  - simpl.
    repeat split; try (intros; first [assumption | reflexivity | discriminate | lra]).
    all: try (intros [? ?]; exfalso; lra).
  - cbv zeta in H. destruct H as (_ & _ & Ht & _).
    specialize (Hty Hpos). rewrite Hty in Ht. rewrite Ht.
    unfold is_partial.
    replace (Qlt_bool 0 (fill_quote f)) with true
      by (symmetry; apply Qlt_bool_iff; exact Hpos). simpl.
    destruct (Qlt_bool (fill_quote f) order_quantity) eqn:P.
    + apply Qlt_bool_iff in P.
      repeat split; try (intros; first [assumption | reflexivity | discriminate | lra]).
      all: try (intros [? ?]; exfalso; lra).
    + apply Qlt_bool_false in P.
      repeat split; try (intros; first [assumption | reflexivity | discriminate | lra]).
      all: try (intros [? ?]; exfalso; lra).
Qed.

(** X19: an order book whose five best levels on both sides hold no
    quantity makes the call raise: for a valid order at latency 0 that
    fills a positive amount, with positive best prices, top-five bid and ask
    quantities that sum to zero and a [default] ADV entry, the call ends in
    [ZeroDivisionError] (from the imbalance ratio of the impact model, or
    from a zero ADV) and returns no result. *)
Theorem zero_top_liquidity_raises
    (side order_type : string) (order_quantity : Q) (order_book : OrderBook)
    (order_price : option Q) (user_fee_profile : option (gmap string Q))
    (w : World rng) (bids asks : list Level) (f : Fill) (a : Q) :
  _validate_inputs side order_type order_quantity (Some order_book) order_price = true ->
  order_book !! "bids" = Some bids -> order_book !! "asks" = Some asks ->
  0 < first_price bids -> 0 < first_price asks ->
  sum_qty (take 5 bids) + sum_qty (take 5 asks) == 0 ->
  fill_phase side order_type order_quantity order_book order_price = Ok f ->
  0 < fill_quote f ->
  adv (impact_model (engine w)) !! "default" = Some a ->
  simulate side order_type order_quantity (Some order_book) order_price 0
    user_fee_profile w = (Raise ZeroDivisionError, w).
Proof.
  intros V Hb Ha Pb Pa Hz F He Hadv.
  unfold simulate_order_execution. rewrite V. simpl.
  f_equal. unfold simulate_on_book. rewrite F. simpl.
  destruct (is_partial (fill_quote f) order_quantity);
    (replace (Qle_bool (fill_quote f) 0) with false
       by (symmetry; apply Qle_bool_false; exact He));
    (replace (calculate_impact pow (impact_model (engine w)) side (fill_quote f)
               order_book "default") with (@Raise (Q) ZeroDivisionError);
     [reflexivity |]).
  all: symmetry; unfold calculate_impact, adv_for, getitem; rewrite Hadv; simpl;
    unfold pydiv at 1; destruct (Qeq_bool a 0); [reflexivity |]; simpl;
    unfold _calculate_liquidity_factor;
    rewrite (best_price_present _ _ _ Hb), (best_price_present _ _ _ Ha); simpl;
    (replace (Qle_bool (first_price bids) 0) with false
       by (symmetry; apply Qle_bool_false; exact Pb));
    (replace (Qle_bool (first_price asks) 0) with false
       by (symmetry; apply Qle_bool_false; exact Pa));
    simpl;
    rewrite (pydiv_pos (first_price asks - first_price bids)
               ((first_price bids + first_price asks) / 2))
      by (apply Qlt_shift_div_l; lra);
    simpl; unfold getitem; rewrite Hb, Ha; simpl;
    destruct (String.eqb (lower side) "buy"); unfold pydiv;
    (replace (Qeq_bool (sum_qty (take 5 bids) + sum_qty (take 5 asks)) 0) with true
       by (symmetry; apply Qeq_bool_iff; exact Hz));
    reflexivity.
Qed.

(** X20: what latency does to the book: for a positive latency and a
    [random.uniform] that stays in its range, the latency simulation
    returns a book with the same number of levels on each side, in which
    every quantity is at least 0.0001, every bid with a non-negative price
    is moved down by at most 5% of its price and every ask up by at most 5%
    (never the other way), and every other key of the book is unchanged;
    the engine is not modified. *)
Theorem latency_moves_prices_away
    (order_book : OrderBook) (latency : Z) (w : World rng)
    (bids asks : list Level) :
  uniform_in_range rng uniform ->
  (0 < latency)%Z ->
  order_book !! "bids" = Some bids -> order_book !! "asks" = Some asks ->
  exists stale w' bids' asks',
    _apply_latency_simulation rng uniform order_book latency w = (Ok stale, w') /\
    engine w' = engine w /\
    stale !! "bids" = Some bids' /\ stale !! "asks" = Some asks' /\
    Forall2 (perturbed (-1)) bids bids' /\
    Forall2 (perturbed 1) asks asks' /\
    (forall key, key <> "bids" -> key <> "asks" -> stale !! key = order_book !! key).
Proof.
  intros Hu Hlat Hb Ha.
  pose proof (modification_factor_range latency Hlat) as Hm.
  assert (Hm' : 0 <= Qmin (inject_Z latency / 1000) 0.1 <= 0.1) by lra.
  pose proof (perturb_levels_spec rng uniform (-1) _ bids Hu Hm'
                ltac:(reflexivity) (rng_state w)) as PB.
  unfold _apply_latency_simulation. rewrite Hb.
  destruct (perturb_levels rng uniform (-1) _ bids (rng_state w)) as [bids' g1].
  simpl in PB.
  rewrite lookup_insert_ne by discriminate. rewrite Ha.
  pose proof (perturb_levels_spec rng uniform 1 _ asks Hu Hm'
                ltac:(reflexivity) g1) as PA.
  destruct (perturb_levels rng uniform 1 _ asks g1) as [asks' g2].
  simpl in PA.
  eexists _, _, bids', asks'. split; [reflexivity |]. simpl.
  split; [reflexivity |].
  split; [rewrite lookup_insert_ne by discriminate; apply lookup_insert_eq |].
  split; [apply lookup_insert_eq |].
  split; [exact PB |]. split; [exact PA |].
  intros key K1 K2. rewrite !lookup_insert_ne by congruence. reflexivity.
Qed.

End EngineBehaviour.

Section EngineErrors.

Variable pow : Q -> Q -> Q.
Variable rng : Type.
Variable uniform : rng -> Q -> Q -> Q * rng.

Abbreviation simulate := (simulate_order_execution pow rng uniform).

(** X21: a custom fee profile is read only after the fill, and only at the
    key of the label: for a valid order at latency 0 that fills a positive
    amount and whose impact is computed, a profile without the key
    ([maker] for a partial fill, [taker] for a full one) makes the call
    raise [KeyError] on that key; no default rate is substituted. *)
Theorem fee_profile_missing_rate_raises
    (side order_type : string) (order_quantity : Q) (order_book : OrderBook)
    (order_price : option Q) (profile : gmap string Q)
    (w : World rng) (f : Fill) (impact_pct : Q) :
  _validate_inputs side order_type order_quantity (Some order_book) order_price = true ->
  fill_phase side order_type order_quantity order_book order_price = Ok f ->
  0 < fill_quote f ->
  calculate_impact pow (impact_model (engine w)) side (fill_quote f) order_book
    "default" = Ok impact_pct ->
  let key := if is_partial (fill_quote f) order_quantity then "maker" else "taker" in
  profile !! key = None ->
  simulate side order_type order_quantity (Some order_book) order_price 0
    (Some profile) w = (Raise (KeyError key), w).
Proof.
  intros V F He Hi key Hk.
  assert (Hty : fill_type f = "taker").
  { destruct (fill_phase_inv _ _ _ _ _ _ F) as (bb & ba & m & _ & _ & _ & _ & Hf).
    destruct Hf as [(_ & Hty & _) | (_ & _ & Z0 & _)]; [exact Hty |].
    rewrite Z0 in He. lra. }
  unfold simulate_order_execution. rewrite V. simpl.
  f_equal. unfold simulate_on_book. rewrite F. simpl.
  subst key.
  destruct (is_partial (fill_quote f) order_quantity);
    (replace (Qle_bool (fill_quote f) 0) with false
       by (symmetry; apply Qle_bool_false; exact He));
    rewrite Hi; simpl; try rewrite Hty; simpl;
    unfold getitem; rewrite Hk; reflexivity.
Qed.

End EngineErrors.

(** * The further properties at concrete inputs *)

Lemma demo_exp_positive : exp_positive demo_exp.
Proof.
  intros x e. unfold demo_exp.
  destruct (1023 <? Qfloor x)%Z; [discriminate |].
  destruct (0 <=? Qfloor x)%Z eqn:S; intros H; inversion H; subst; clear H.
  - apply Z.leb_le in S.
    change 0 with (inject_Z 0). rewrite <- Zlt_Qlt.
    apply Z.pow_pos_nonneg; lia.
  - apply Z.leb_gt in S.
    assert (P : 0 < inject_Z (2 ^ (- Qfloor x))).
    { change 0 with (inject_Z 0). rewrite <- Zlt_Qlt.
      apply Z.pow_pos_nonneg; lia. }
    apply Qlt_shift_div_l; [exact P | lra].
Qed.

(** Orders of exactly 10000 and of 10000.01: multipliers 1 and 0.9. *)
Lemma tier_multiplier_discount_witness :
  (_get_tier_multiplier MakerTakerFeeModel_init 10000 = 1 <-> 10000 <= 10000) /\
  (_get_tier_multiplier MakerTakerFeeModel_init 10000 = 0.9 <->
   10000 < 10000 /\ 10000 <= 100000) /\
  (_get_tier_multiplier MakerTakerFeeModel_init 10000 = 0.8 <->
   100000 < 10000 /\ 10000 <= 1000000) /\
  (_get_tier_multiplier MakerTakerFeeModel_init 10000 = 0.7 <-> 1000000 < 10000) /\
  _get_tier_multiplier MakerTakerFeeModel_init 10000.01
    <= _get_tier_multiplier MakerTakerFeeModel_init 10000.
Proof.
  apply (tier_multiplier_discount MakerTakerFeeModel_init 10000 10000.01).
  vm_compute; discriminate.
Defined.

(** Volumes of 5000 and of 250000. *)
Lemma volume_tier_rates_witness :
  exists m1 t1 m2 t2,
    _get_fee_rates MakerTakerFeeModel_init (Some (volume_profile 5000)) = Ok (m1, t1) /\
    _get_fee_rates MakerTakerFeeModel_init (Some (volume_profile 250000)) = Ok (m2, t2) /\
    m2 <= m1 /\ t2 <= t1 /\
    t1 == m1 + 0.02 /\ t2 == m2 + 0.02 /\
    0.01 <= m2 /\ m1 <= 0.06 /\
    (5000 < 0 -> m1 == 0.06 /\ t1 == 0.08).
Proof.
  apply (volume_tier_rates MakerTakerFeeModel_init
           (volume_profile 5000) (volume_profile 250000) 5000 250000).
  - vm_compute; reflexivity.
  - vm_compute; reflexivity.
  - vm_compute; reflexivity.
  - vm_compute; reflexivity.
  - vm_compute; discriminate.
Defined.

(** A profile whose volume is a string. *)
Lemma fee_rates_invariant_witness :
  (exists maker taker,
     _get_fee_rates MakerTakerFeeModel_init
       (Some (<["trading_volume" := PyStr "high"]> ∅)) = Ok (maker, taker) /\
     -0.01 <= maker /\ maker < taker /\ taker <= 0.08) \/
  (_get_fee_rates MakerTakerFeeModel_init
     (Some (<["trading_volume" := PyStr "high"]> ∅)) = Raise TypeError /\
   exists profile s,
     Some (<["trading_volume" := PyStr "high"]> ∅ : gmap string PyVal) = Some profile /\
     profile !! "trading_volume" = Some (PyStr s)).
Proof.
  apply (fee_rates_invariant MakerTakerFeeModel_init
           (Some (<["trading_volume" := PyStr "high"]> ∅))).
  - reflexivity.
  - reflexivity.
Defined.

(** The market-maker tier, alone and beside a volume of the cheapest tier. *)
Lemma vip_tier_decides_witness :
  _get_fee_rates MakerTakerFeeModel_init
    (Some (<["vip_tier" := PyStr "market_maker"]> ∅)) = Ok (-0.01, 0.02) /\
  _get_fee_rates MakerTakerFeeModel_init
    (Some (<["vip_tier" := PyStr "market_maker"]> (volume_profile 500000000))) =
  _get_fee_rates MakerTakerFeeModel_init
    (Some (<["vip_tier" := PyStr "market_maker"]> ∅)).
Proof.
  apply (vip_tier_decides MakerTakerFeeModel_init
           (<["vip_tier" := PyStr "market_maker"]> ∅)
           (<["vip_tier" := PyStr "market_maker"]> (volume_profile 500000000))
           "market_maker" (-0.01) 0.02).
  - vm_compute; reflexivity.
  - vm_compute; reflexivity.
  - vm_compute; reflexivity.
Defined.

(** A limit order of 1000: a buy on the book of the tests, a sell on the
    thin book. *)
Lemma rule_based_limit_ignores_book_witness :
  estimate demo_exp demo_log MakerTakerFeeModel_init 1000 "buy"
    (Some mock_order_book) "limit" None =
  estimate demo_exp demo_log MakerTakerFeeModel_init 1000 "sell"
    (Some thin_book) "limit" None /\
  forall book, book !! "bids" = None ->
    estimate demo_exp demo_log MakerTakerFeeModel_init 1000 "buy"
      (Some book) "limit" None = Raise (KeyError "bids").
Proof.
  apply (rule_based_limit_ignores_book demo_exp demo_log MakerTakerFeeModel_init 1000
           "buy" "sell" "limit" mock_order_book thin_book
           [(27350.5, 1.5); (27345, 2); (27340, 3); (27335, 4); (27330, 5)]
           [(27355, 1); (27360, 2); (27365, 3); (27370, 4); (27375, 5)]
           [(99, 1)] [(100, 1)] None).
  - reflexivity.
  - vm_compute; discriminate.
  - vm_compute; reflexivity.
  - vm_compute; reflexivity.
  - vm_compute; reflexivity.
  - vm_compute; reflexivity.
Defined.

(** An order of 50000 without a profile: 0.054 as a limit, 0.072 as a market
    order. *)
Lemma rule_based_market_above_limit_witness :
  exists fee_limit fee_market,
    estimate demo_exp demo_log MakerTakerFeeModel_init 50000 "buy"
      (Some mock_order_book) "limit" None = Ok fee_limit /\
    estimate demo_exp demo_log MakerTakerFeeModel_init 50000 "buy"
      (Some mock_order_book) "market" None = Ok fee_market /\
    -0.01 <= fee_limit /\ fee_limit < fee_market /\ fee_market <= 0.08 /\
    (profile_missing None = false -> fee_limit = 0.06 /\ fee_market = 0.08) /\
    (profile_missing None = true ->
     fee_limit == 0.06 * _get_tier_multiplier MakerTakerFeeModel_init 50000 /\
     fee_market == 0.08 * _get_tier_multiplier MakerTakerFeeModel_init 50000).
Proof.
  apply (rule_based_market_above_limit demo_exp demo_log MakerTakerFeeModel_init 50000
           "buy" mock_order_book
           [(27350.5, 1.5); (27345, 2); (27340, 3); (27335, 4); (27330, 5)]
           [(27355, 1); (27360, 2); (27365, 3); (27370, 4); (27375, 5)]
           "market" "limit" None 0.06 0.08).
  - reflexivity.
  - reflexivity.
  - reflexivity.
  - vm_compute; reflexivity.
  - vm_compute; discriminate.
  - vm_compute; reflexivity.
  - vm_compute; reflexivity.
  - vm_compute; reflexivity.
Defined.

(** A buy limit at 27360 over a best ask of 27355. *)
Lemma predict_agrees_with_engine_witness :
  (predict_execution_type MakerTakerFeeModel_init "buy" "limit" (Some 27360)
     mock_order_book = Ok "taker" <->
   is_marketable "buy" "limit" (Some 27360) 27350.5 27355 = Ok true) /\
  (predict_execution_type MakerTakerFeeModel_init "buy" "limit" (Some 27360)
     mock_order_book = Ok "maker" <->
   is_marketable "buy" "limit" (Some 27360) 27350.5 27355 = Ok false) /\
  (predict_execution_type MakerTakerFeeModel_init "buy" "limit" (Some 27360)
     mock_order_book = Raise TypeError <->
   is_marketable "buy" "limit" (Some 27360) 27350.5 27355 = Raise TypeError).
Proof.
  apply (predict_agrees_with_engine MakerTakerFeeModel_init "buy" "limit" (Some 27360)
           mock_order_book
           [(27350.5, 1.5); (27345, 2); (27340, 3); (27335, 4); (27330, 5)]
           [(27355, 1); (27360, 2); (27365, 3); (27370, 4); (27375, 5)]).
  - left. vm_compute; reflexivity.
  - right. vm_compute; reflexivity.
  - vm_compute; reflexivity.
  - vm_compute; reflexivity.
  - discriminate.
  - discriminate.
Defined.

(** An argument of -2000, where the stand-in for [math.exp] overflows. *)
Lemma sigmoid_saturates_witness :
  exists y,
    _sigmoid demo_exp MakerTakerFeeModel_init (-2000) = Ok y /\ 0 <= y <= 1 /\
    (demo_exp (- (-2000)) = None -> (-2000 < 0 -> y = 0) /\ (0 <= -2000 -> y = 1)).
Proof.
  apply (sigmoid_saturates demo_exp MakerTakerFeeModel_init (-2000)).
  exact demo_exp_positive.
Defined.

(** The logistic estimate of a limit order of 1000 without a profile. *)
Lemma ml_estimate_between_rates_witness :
  exists v,
    _estimate_ml demo_exp demo_log
      {| use_ml := true; w1 := 0.3; w2 := 8; bias := -2.5;
         default_maker_fee := 0.06; default_taker_fee := 0.08 |}
      1000 "buy" (Some mock_order_book) "limit" None = Ok v /\
    pyround (Qmin 0.06 0.08) 4 <= v /\
    v <= pyround (Qmax 0.06 0.08) 4 /\
    (lower "limit" = "market" -> v == pyround 0.08 4).
Proof.
  apply (ml_estimate_between_rates demo_exp demo_log
           {| use_ml := true; w1 := 0.3; w2 := 8; bias := -2.5;
              default_maker_fee := 0.06; default_taker_fee := 0.08 |}
           1000 "buy" (Some mock_order_book) "limit" None 0.06 0.08).
  - exact demo_exp_positive.
  - vm_compute; reflexivity.
Defined.

(** The impact of a buy of 300 on the book of the tests. *)
Lemma impact_components_ordered_witness :
  exists impact,
    calculate_impact demo_pow (impact_model ExecutionEngine_init) "buy" 300
      mock_order_book "default" = Ok impact /\
    exists permanent temporary lf,
      estimate_permanent_impact demo_pow (impact_model ExecutionEngine_init) 300
        "default" = Ok permanent /\
      estimate_temporary_impact demo_pow (impact_model ExecutionEngine_init) 300
        "default" = Ok temporary /\
      _calculate_liquidity_factor (impact_model ExecutionEngine_init) "buy"
        mock_order_book = Ok lf /\
      0 <= permanent /\ permanent <= temporary /\ 0 <= impact /\
      0.5 <= lf <= 3 /\
      (forall bids asks,
         mock_order_book !! "bids" = Some bids -> mock_order_book !! "asks" = Some asks ->
         first_price bids <= first_price asks -> 1 <= lf /\ temporary <= impact).
Proof.
  eexists. split; [vm_compute; reflexivity |].
  apply (impact_components_ordered demo_pow (impact_model ExecutionEngine_init)
           "buy" 300 mock_order_book "default" 100000000).
  - exact demo_pow_monotone.
  - vm_compute; discriminate.
  - vm_compute; reflexivity.
  - reflexivity.
  - reflexivity.
  - vm_compute; reflexivity.
Defined.

(** A table with BTC-USDT alone. *)
Lemma impact_needs_default_entry_witness :
  calculate_impact demo_pow
    (MarketImpactModel_init 0.1 0.5 (Some (<["BTC-USDT" := 1000000000]> ∅)))
    "buy" 300 mock_order_book "BTC-USDT" = Raise (KeyError "default") /\
  estimate_permanent_impact demo_pow
    (MarketImpactModel_init 0.1 0.5 (Some (<["BTC-USDT" := 1000000000]> ∅)))
    300 "BTC-USDT" = Raise (KeyError "default") /\
  estimate_temporary_impact demo_pow
    (MarketImpactModel_init 0.1 0.5 (Some (<["BTC-USDT" := 1000000000]> ∅)))
    300 "BTC-USDT" = Raise (KeyError "default").
Proof.
  apply (impact_needs_default_entry demo_pow 0.1 0.5 (<["BTC-USDT" := 1000000000]> ∅)
           "buy" 300 mock_order_book "BTC-USDT").
  - apply insert_non_empty.
  - vm_compute; reflexivity.
Defined.

(** The ADV of BTC-USDT doubled. *)
Lemma larger_adv_lowers_impact_witness :
  exists impact,
    calculate_impact demo_pow (impact_model ExecutionEngine_init) "buy" 300
      mock_order_book "BTC-USDT" = Ok impact /\
    exists impact',
      calculate_impact demo_pow
        (update_adv (impact_model ExecutionEngine_init) "BTC-USDT" 2000000000)
        "buy" 300 mock_order_book "BTC-USDT" = Ok impact' /\
      impact' <= impact.
Proof.
  eexists. split; [vm_compute; reflexivity |].
  apply (larger_adv_lowers_impact demo_pow (impact_model ExecutionEngine_init)
           "buy" 300 mock_order_book "BTC-USDT" 1000000000 2000000000).
  - exact demo_pow_monotone.
  - vm_compute; discriminate.
  - vm_compute; reflexivity.
  - reflexivity.
  - vm_compute; discriminate.
  - reflexivity.
  - vm_compute; reflexivity.
Defined.

(** A sell at 99 under a mid price of 100: a slippage of 1. *)
Lemma calculate_slippage_zero_iff_witness :
  (calculate_slippage {| use_ml_model := false |} "sell" 100 99 10 == 0 <->
   direction "sell" * 99 <= direction "sell" * 100) /\
  (lower "sell" <> "buy" ->
   calculate_slippage {| use_ml_model := false |} "sell" 100 99 10 <= 100).
Proof.
  apply (calculate_slippage_zero_iff {| use_ml_model := false |} "sell" 100 99 10).
  - reflexivity.
  - reflexivity.
Defined.

(** A market buy of 27355.005: the first ask fills 27355 and the walk stops
    with 0.005 left, so the result is [partial]. *)
Lemma execution_type_by_fill_witness :
  exists r,
    simulate_order_execution demo_pow Z demo_uniform
      "buy" "market" 27355.005 (Some mock_order_book) None 0 None demo_world
    = (Ok r, demo_world) /\
    execution_type r = "partial" /\
    exists f,
      fill_phase "buy" "market" 27355.005 mock_order_book None = Ok f /\
      (execution_type r = "fail" <-> fill_quote f <= 0) /\
      (execution_type r = "partial" <->
       0 < fill_quote f /\ fill_quote f < 27355.005) /\
      (execution_type r = "taker" <->
       0 < fill_quote f /\ 27355.005 <= fill_quote f).
Proof.
  eexists. split; [vm_compute; reflexivity |]. split; [reflexivity |].
  apply (execution_type_by_fill demo_pow Z demo_uniform
           "buy" "market" 27355.005 mock_order_book None None demo_world demo_world).
  - vm_compute; reflexivity.
  - vm_compute; reflexivity.
Defined.

(** A market buy of 50 on the hollow book: the sixth ask fills it. *)
Lemma zero_top_liquidity_raises_witness :
  _validate_inputs "buy" "market" 50 (Some hollow_book) None = true /\
  simulate_order_execution demo_pow Z demo_uniform
    "buy" "market" 50 (Some hollow_book) None 0 None demo_world
  = (Raise ZeroDivisionError, demo_world).
Proof.
  split; [vm_compute; reflexivity |].
  eassert (F : fill_phase "buy" "market" 50 hollow_book None = Ok _)
    by (vm_compute; reflexivity).
  apply (zero_top_liquidity_raises demo_pow Z demo_uniform
           "buy" "market" 50 hollow_book None None demo_world
           [(99, 0)]
           [(100, 0); (101, 0); (102, 0); (103, 0); (104, 0); (105, 1)]
           _ 100000000 ltac:(vm_compute; reflexivity)
           ltac:(vm_compute; reflexivity) ltac:(vm_compute; reflexivity)
           ltac:(reflexivity) ltac:(reflexivity) ltac:(vm_compute; reflexivity) F).
  - vm_compute; reflexivity.
  - vm_compute; reflexivity.
Defined.

(** 250 ms of latency on the book of the tests. *)
Lemma latency_moves_prices_away_witness :
  exists stale w' bids' asks',
    _apply_latency_simulation Z demo_uniform mock_order_book 250 demo_world
      = (Ok stale, w') /\
    engine w' = engine demo_world /\
    stale !! "bids" = Some bids' /\ stale !! "asks" = Some asks' /\
    Forall2 (perturbed (-1))
      [(27350.5, 1.5); (27345, 2); (27340, 3); (27335, 4); (27330, 5)] bids' /\
    Forall2 (perturbed 1)
      [(27355, 1); (27360, 2); (27365, 3); (27370, 4); (27375, 5)] asks' /\
    (forall key, key <> "bids" -> key <> "asks" ->
       stale !! key = mock_order_book !! key).
Proof.
  apply (latency_moves_prices_away Z demo_uniform mock_order_book 250 demo_world
           [(27350.5, 1.5); (27345, 2); (27340, 3); (27335, 4); (27330, 5)]
           [(27355, 1); (27360, 2); (27365, 3); (27370, 4); (27375, 5)]).
  - exact demo_uniform_in_range.
  - lia.
  - vm_compute; reflexivity.
  - vm_compute; reflexivity.
Defined.

(** A full fill under a profile that holds the maker rate only. *)
Lemma fee_profile_missing_rate_raises_witness :
  _validate_inputs "buy" "market" 300 (Some mock_order_book) None = true /\
  simulate_order_execution demo_pow Z demo_uniform
    "buy" "market" 300 (Some mock_order_book) None 0
    (Some (<["maker" := 0.01]> ∅)) demo_world
  = (Raise (KeyError "taker"), demo_world).
Proof.
  split; [vm_compute; reflexivity |].
  eassert (F : fill_phase "buy" "market" 300 mock_order_book None = Ok _)
    by (vm_compute; reflexivity).
  eassert (I : calculate_impact demo_pow (impact_model (engine demo_world)) "buy" _
                 mock_order_book "default" = Ok _)
    by (vm_compute; reflexivity).
  apply (fee_profile_missing_rate_raises demo_pow Z demo_uniform
           "buy" "market" 300 mock_order_book None (<["maker" := 0.01]> ∅) demo_world
           _ _ ltac:(vm_compute; reflexivity) F ltac:(vm_compute; reflexivity) I).
  vm_compute; reflexivity.
Defined.
